(** * Driver proximity index of UIT-go: the driver service over its Redis
      geo index and its Prisma table

    Shallow embedding of
      - apps/driver-service/src/common/redis/redis.service.ts (RedisService,
        in the revision that has [geosearchLarge])
      - apps/driver-service/src/driver/driver.service.ts      (DriverService)

    JavaScript numbers that carry coordinates, radii and distances are
    modelled as rationals ([Q]); numbers that carry counts as integers
    ([Z]), with [NaN] as [None] where the source can produce it
    ([parseInt]).  The two collaborators the services talk to (the Redis
    server behind the node-redis client, the database behind Prisma) are
    modelled as a world that every method threads through, together with
    the trace of the commands that were sent to them. *)

From Stdlib Require Import QArith Qabs Ascii String DecimalString DecimalN.
From stdpp Require Import gmap strings list sorting pretty.

Local Open Scope string_scope.
Local Open Scope Z_scope.

(** ** JavaScript built-ins used by the services *)

Module Js.

(** [s.startsWith(p)] *)
Definition startsWith (s p : string) : bool := String.prefix p s.

(** [arr.slice(0, end)] for an integral [end]: a negative [end] counts
    from the end of the array, and the bounds are clamped to the array. *)
Definition slice0 {A} (arr : list A) (end_ : Z) : list A :=
  let len := Z.of_nat (length arr) in
  let final := if end_ <? 0 then Z.max (len + end_) 0 else Z.min end_ len in
  take (Z.to_nat final) arr.

(** [Math.max(0, n)] on integers. *)
Definition max0 (n : Z) : Z := Z.max 0 n.

(** [a || b] on strings that may be [undefined]: the empty string and
    [undefined] are falsy. *)
Definition or_string (a : option string) (b : string) : string :=
  match a with
  | Some s => if decide (s = "") then b else s
  | None => b
  end.

Definition is_space (c : ascii) : bool :=
  let n := Ascii.nat_of_ascii c in
  bool_decide (n = 32 ∨ (9 ≤ n ∧ n ≤ 13))%nat.

Definition digit_of (c : ascii) : option Z :=
  let n := Z.of_nat (Ascii.nat_of_ascii c) in
  if (48 <=? n) && (n <=? 57) then Some (n - 48)
  else if (97 <=? n) && (n <=? 122) then Some (n - 87)
  else if (65 <=? n) && (n <=? 90) then Some (n - 55)
  else None.

Fixpoint skip_spaces (s : string) : string :=
  match s with
  | String c s' => if is_space c then skip_spaces s' else s
  | EmptyString => s
  end.

(** The longest prefix of digits in the given radix, accumulated from
    the left; [None] when no digit was read. *)
Fixpoint digits (radix : Z) (acc : option Z) (s : string) : option Z :=
  match s with
  | String c s' =>
      match digit_of c with
      | Some d =>
          if d <? radix
          then digits radix (Some (radix * default 0 acc + d)) s'
          else acc
      | None => acc
      end
  | EmptyString => acc
  end.

Definition strip_hex (s : string) : option string :=
  match s with
  | String "0" (String "x" s') => Some s'
  | String "0" (String "X" s') => Some s'
  | _ => None
  end.

Definition unsigned (s : string) : option Z :=
  match strip_hex s with
  | Some s' => digits 16 None s'
  | None => digits 10 None s
  end.

(** [parseInt(s)] without a radix; [None] stands for [NaN]. *)
Definition parseInt (s : string) : option Z :=
  match skip_spaces s with
  | String "-" s' => Z.opp <$> unsigned s'
  | String "+" s' => unsigned s'
  | s' => unsigned s'
  end.

End Js.

(** ** Exceptions and asynchronous methods *)

(** What a rejected promise carries.  [message] is the [.message] property
    the services read. *)
Inductive Exception :=
  | Error (msg : string)          (* [new Error(msg)] raised by the service *)
  | TypeError (msg : string)      (* property access on [null] *)
  | ReplyError (msg : string)     (* an error reply of the Redis server *)
  | ClientError (msg : string)    (* the Redis client could not serve the command *)
  | PrismaError (code msg : string).

Definition message (e : Exception) : string :=
  match e with
  | Error m | TypeError m | ReplyError m | ClientError m | PrismaError _ m => m
  end.

Inductive Outcome (A : Type) :=
  | Return (a : A)
  | Throw (e : Exception).
Arguments Return {A} a.
Arguments Throw {A} e.

(** ** Data of the two collaborators *)

(** The enums [DriverStatusEnum] (@uit-go/shared-types) and [VehicleType]
    (generated Prisma client) are declared outside the service sources;
    these are the members the services name. *)
Inductive DriverStatusEnum := ONLINE | OFFLINE | BUSY.
Inductive VehicleType := MOTOBIKE | BIKE.

Module DriverProfile.
(** A row of the [driverProfile] table. *)
Record t := mk {
  userId : string;
  name : string;
  email : string;
  phone : string;
  vehicleType : VehicleType;
  licensePlate : string;
  licenseNumber : string;
  status : DriverStatusEnum;
  rating : Q;
  balance : Q;
  lastLat : option Q;
  lastLng : option Q
}.
End DriverProfile.

Module DriverProfileResponse.
Record t := mk {
  userId : string;
  name : string;
  email : string;
  phone : string;
  vehicleType : VehicleType;
  licensePlate : string;
  licenseNumber : string;
  status : DriverStatusEnum;
  rating : Q;
  balance : Q;
  lastLat : option Q;
  lastLng : option Q
}.
End DriverProfileResponse.

Module Geo.
(** A position stored in a Redis geo set. *)
Record Position := mk { longitude : Q; latitude : Q }.

(** One entry of a GEOSEARCH ... WITHDIST reply. *)
Record Reply := reply { member : string; distance : Q }.

(** The distance in kilometres that the store computes between two
    positions (Redis: great circle on a sphere, on doubles).  The
    services never compute it themselves, so it is an interface. *)
Class Metric := geodist : Position → Position → Q.
End Geo.

(** Commands that reached a collaborator, oldest first. *)
Inductive Call :=
  | GEOADD (key : string) (lon lat : Q) (member : string)
  | GEOSEARCH (key : string) (lon lat radiusKm : Q) (count : option Z)
  | FindUnique (userId : string)
  | Update (userId : string)
  | Delete (userId : string).

Record World := mkWorld {
  (** [Some e]: the Redis client rejects every command with [e]
      (connection lost, timeout). *)
  redis_fault : option Exception;
  (** key ↦ geo set (member ↦ position) *)
  redis_keys : gmap string (gmap string Geo.Position);
  (** [Some e]: every database statement fails with [e]. *)
  db_fault : option Exception;
  (** the [driverProfile] table, keyed by its unique [userId] *)
  driverProfile : gmap string DriverProfile.t;
  trace : list Call
}.

Definition set_redis_keys (ks : gmap string (gmap string Geo.Position)) (w : World) : World :=
  mkWorld (redis_fault w) ks (db_fault w) (driverProfile w) (trace w).

Definition set_driverProfile (t : gmap string DriverProfile.t) (w : World) : World :=
  mkWorld (redis_fault w) (redis_keys w) (db_fault w) t (trace w).

Definition record (c : Call) (w : World) : World :=
  mkWorld (redis_fault w) (redis_keys w) (db_fault w) (driverProfile w) (trace w ++ [c]).

(** An [async] method: it runs on a world, and resolves or rejects. *)
Definition Async (A : Type) : Type := World → Outcome A * World.

Definition resolve {A} (a : A) : Async A := λ w, (Return a, w).
Definition reject {A} (e : Exception) : Async A := λ w, (Throw e, w).

(** [await m], then the rest. *)
Definition await {A B} (m : Async A) (k : A → Async B) : Async B :=
  λ w, match m w with
       | (Return a, w') => k a w'
       | (Throw e, w') => (Throw e, w')
       end.

(** What an invocation resolved to, if it did. *)
Definition resolved {A} (r : Outcome A * World) : option A :=
  match r.1 with
  | Return a => Some a
  | Throw _ => None
  end.

(** [try { m } catch (error) { h error }] *)
Definition try_catch {A} (m : Async A) (h : Exception → Async A) : Async A :=
  λ w, match m w with
       | (Return a, w') => (Return a, w')
       | (Throw e, w') => h e w'
       end.

Notation "'let*' x := m 'in' k" := (await m (λ x, k))
  (at level 10, x name, m at level 100, k at level 200).
Notation "m ;; k" := (await m (λ _, k))
  (at level 100, k at level 200, right associativity).

(** ** The Redis server behind the node-redis client

    Only the two geo commands the service sends are modelled, as the Redis
    documentation describes them: GEOADD rejects a position outside
    longitude [-180, 180] and latitude [-85.05112878, 85.05112878] and
    otherwise sets the member's position (adding the member if it is new);
    GEOSEARCH FROMLONLAT BYRADIUS ASC [COUNT n] WITHDIST returns the
    members within the radius, nearest first, at most [n] of them.  The
    order among members at equal distance is the model's choice. *)

Module RedisClient.
Import Geo.

Definition valid_position (lon lat : Q) : bool :=
  Qle_bool (-180) lon && Qle_bool lon 180 &&
  Qle_bool (-85.05112878) lat && Qle_bool lat 85.05112878.

Definition invalid_pair : Exception :=
  ReplyError "ERR invalid longitude,latitude pair".
Definition negative_radius : Exception :=
  ReplyError "ERR radius cannot be negative".
Definition bad_count : Exception :=
  ReplyError "ERR COUNT must be > 0".

(** The geo set under [key]; a missing key is an empty set. *)
Definition geoset (key : string) (w : World) : gmap string Position :=
  default ∅ (redis_keys w !! key).

(** [client.geoAdd(key, [{ longitude, latitude, member }])]: resolves to
    the number of members that were new. *)
Definition geoAdd (key : string) (lon lat : Q) (member : string) : Async Z :=
  λ w,
    let w := record (GEOADD key lon lat member) w in
    match redis_fault w with
    | Some e => (Throw e, w)
    | None =>
        if valid_position lon lat then
          let zset := geoset key w in
          (Return (if zset !! member is Some _ then 0 else 1),
           set_redis_keys (<[key := <[member := mk lon lat]> zset]> (redis_keys w)) w)
        else (Throw invalid_pair, w)
    end.

Definition nearer (a b : Reply) : Prop := Qle_bool (distance a) (distance b).

Section Search.
Context {metric : Metric}.

(** Every member with its distance from the centre. *)
Definition measured (centre : Position) (zset : gmap string Position) : list Reply :=
  (λ mp, reply mp.1 (geodist centre mp.2)) <$> map_to_list zset.

Definition in_radius (radiusKm : Q) (r : Reply) : bool :=
  Qle_bool (distance r) radiusKm.

Definition limit (count : option Z) (l : list Reply) : list Reply :=
  match count with
  | Some n => take (Z.to_nat n) l
  | None => l
  end.

(** COUNT must be positive when it is given. *)
Definition bad_limit (count : option Z) : bool :=
  match count with
  | Some n => n <=? 0
  | None => false
  end.

(** BYRADIUS, then ASC, then COUNT. *)
Definition search (centre : Position) (radiusKm : Q) (count : option Z)
    (zset : gmap string Position) : list Reply :=
  limit count
    (merge_sort nearer (List.filter (in_radius radiusKm) (measured centre zset))).

(** [client.geoSearchWith(key, { longitude, latitude },
      { radius, unit: 'km' }, ['WITHDIST'], { SORT: 'ASC', COUNT? })] *)
Definition geoSearchWith (key : string) (lon lat radiusKm : Q)
    (count : option Z) : Async (list Reply) :=
  λ w,
    let w := record (GEOSEARCH key lon lat radiusKm count) w in
    match redis_fault w with
    | Some e => (Throw e, w)
    | None =>
        if negb (valid_position lon lat) then (Throw invalid_pair, w)
        else if negb (Qle_bool 0 radiusKm) then (Throw negative_radius, w)
        else if bad_limit count then (Throw bad_count, w)
        else (Return (search (mk lon lat) radiusKm count (geoset key w)), w)
    end.
End Search.
End RedisClient.

(** ** redis.service.ts *)

Module RedisService.
Section Service.
Context {metric : Geo.Metric}.

Definition geoadd (key : string) (lon lat : Q) (member : string) : Async Z :=
  RedisClient.geoAdd key lon lat member.

(** [options.COUNT] is set only for a truthy, positive [maxCount];
    [None] is [NaN].  [parseFloat] of the reply's distance is the
    distance itself. *)
Definition count_option (maxCount : option Z) : option Z :=
  match maxCount with
  | Some n => if bool_decide (n ≠ 0) && (0 <? n) then Some n else None
  | None => None
  end.

Definition geosearch (key : string) (lon lat radiusKm : Q)
    (count : option Z) : Async (list Geo.Reply) :=
  let* results := RedisClient.geoSearchWith key lon lat radiusKm (count_option count) in
  resolve ((λ r, Geo.reply (Geo.member r) (Geo.distance r)) <$> results).

Definition geosearchLarge (key : string) (lon lat radiusKm : Q)
    (maxCount : option Z) : Async (list Geo.Reply) :=
  let* results := RedisClient.geoSearchWith key lon lat radiusKm (count_option maxCount) in
  resolve ((λ r, Geo.reply (Geo.member r) (Geo.distance r)) <$> results).
End Service.
End RedisService.

(** ** The Prisma client over the [driverProfile] table *)

Module Prisma.

(** Prisma's P2025: the record a statement needs does not exist. *)
Definition not_found : Exception :=
  PrismaError "P2025"
    "An operation failed because it depends on one or more records that were required but not found.".

(** [driverProfile.findUnique({ where: { userId } })]: the row or [null]. *)
Definition findUnique (userId : string) : Async (option DriverProfile.t) :=
  λ w,
    let w := record (FindUnique userId) w in
    match db_fault w with
    | Some e => (Throw e, w)
    | None => (Return (driverProfile w !! userId), w)
    end.

(** [driverProfile.update({ where: { userId }, data })]: [data] is the
    change to the row; resolves to the updated row. *)
Definition update (userId : string) (data : DriverProfile.t → DriverProfile.t)
    : Async DriverProfile.t :=
  λ w,
    let w := record (Update userId) w in
    match db_fault w with
    | Some e => (Throw e, w)
    | None =>
        match driverProfile w !! userId with
        | Some row =>
            (Return (data row),
             set_driverProfile (<[userId := data row]> (driverProfile w)) w)
        | None => (Throw not_found, w)
        end
    end.

(** [driverProfile.delete({ where: { userId } })] *)
Definition delete (userId : string) : Async DriverProfile.t :=
  λ w,
    let w := record (Delete userId) w in
    match db_fault w with
    | Some e => (Throw e, w)
    | None =>
        match driverProfile w !! userId with
        | Some row =>
            (Return row, set_driverProfile (base.delete userId (driverProfile w)) w)
        | None => (Throw not_found, w)
        end
    end.

(** [$transaction(async (db) => body)]: when the body rejects, what it
    wrote to the table is rolled back. *)
Definition transaction {A} (body : Async A) : Async A :=
  λ w,
    match body w with
    | (Return a, w') => (Return a, w')
    | (Throw e, w') => (Throw e, set_driverProfile (driverProfile w) w')
    end.

End Prisma.

(** ** driver.service.ts *)

Module UpdateStatusRequest.
Record t := mk { driverId : string; status : DriverStatusEnum }.
End UpdateStatusRequest.

Module UpdateLocationRequest.
Record t := mk { driverId : string; latitude : Q; longitude : Q }.
End UpdateLocationRequest.

Module NearbyQuery.
Record t := mk { latitude : Q; longitude : Q; radiusKm : Q; count : Z }.
End NearbyQuery.

Module NearbyDriver.
(** One entry of [NearbyDriverResponse.list].  [distance] is the number
    whose [toString()] the source puts in the response. *)
Record t := mk { driverId : string; distance : Q }.
End NearbyDriver.

Module DeleteResult.
Record t := mk { success : bool; message : string }.
End DeleteResult.

(** [process.env], restricted to the variables the service reads. *)
Module Env.
Record t := mk {
  USE_H3 : option string;
  MAX_DRIVER_SEARCH_COUNT : option string;
  PREFER_REAL_DRIVERS : option string
}.
Definition unset : t := mk None None None.
End Env.

Module DriverService.
Import DriverProfileResponse.

Definition isGhost (id : string) : bool := Js.startsWith id "ghost:".

Definition mapToResponse (profile : DriverProfile.t) : DriverProfileResponse.t :=
  {| userId := DriverProfile.userId profile;
     name := DriverProfile.name profile;
     email := DriverProfile.email profile;
     phone := DriverProfile.phone profile;
     vehicleType := DriverProfile.vehicleType profile;
     licensePlate := DriverProfile.licensePlate profile;
     licenseNumber := DriverProfile.licenseNumber profile;
     status := DriverProfile.status profile;
     rating := DriverProfile.rating profile;
     balance := DriverProfile.balance profile;
     lastLat := DriverProfile.lastLat profile;
     lastLng := DriverProfile.lastLng profile |}.

(** [mapToResponse(profile)] where [profile] may be [null]. *)
Definition mapToResponse_nullable (profile : option DriverProfile.t)
    : Async DriverProfileResponse.t :=
  match profile with
  | Some p => resolve (mapToResponse p)
  | None => reject (TypeError "Cannot read properties of null (reading 'userId')")
  end.

(** The object literal the three ghost bypasses build. *)
Definition ghostProfile (id : string) (st : DriverStatusEnum)
    (lat lng : option Q) : DriverProfileResponse.t :=
  {| userId := id;
     name := "Ghost Driver";
     email := id +:+ "@ghost.test";
     phone := "+1000000000";
     vehicleType := MOTOBIKE;
     licensePlate := "GHOST-001";
     licenseNumber := "DL-GHOST";
     status := st;
     rating := 4.8;
     balance := 0;
     lastLat := lat;
     lastLng := lng |}.

Definition findOne (id : string) : Async DriverProfileResponse.t :=
  if isGhost id then resolve (ghostProfile id ONLINE None None)
  else
    let* profile := Prisma.findUnique id in
    mapToResponse_nullable profile.

Definition statusData (st : DriverStatusEnum) (row : DriverProfile.t) : DriverProfile.t :=
  let clear := match st with BUSY | OFFLINE => true | ONLINE => false end in
  DriverProfile.mk
    (DriverProfile.userId row) (DriverProfile.name row) (DriverProfile.email row)
    (DriverProfile.phone row) (DriverProfile.vehicleType row)
    (DriverProfile.licensePlate row) (DriverProfile.licenseNumber row)
    st (DriverProfile.rating row) (DriverProfile.balance row)
    (if clear then None else DriverProfile.lastLat row)
    (if clear then None else DriverProfile.lastLng row).

Definition updateStatus (data : UpdateStatusRequest.t) : Async DriverProfileResponse.t :=
  let id := UpdateStatusRequest.driverId data in
  let st := UpdateStatusRequest.status data in
  if isGhost id then resolve (ghostProfile id st None None)
  else
    let* profile := Prisma.transaction (Prisma.update id (statusData st)) in
    resolve (mapToResponse profile).

Definition locationData (lat lng : Q) (row : DriverProfile.t) : DriverProfile.t :=
  DriverProfile.mk
    (DriverProfile.userId row) (DriverProfile.name row) (DriverProfile.email row)
    (DriverProfile.phone row) (DriverProfile.vehicleType row)
    (DriverProfile.licensePlate row) (DriverProfile.licenseNumber row)
    (DriverProfile.status row) (DriverProfile.rating row) (DriverProfile.balance row)
    (Some lat) (Some lng).

Section Service.
Context {metric : Geo.Metric}.

Definition updateLocation (data : UpdateLocationRequest.t) : Async DriverProfileResponse.t :=
  let id := UpdateLocationRequest.driverId data in
  let lat := UpdateLocationRequest.latitude data in
  let lng := UpdateLocationRequest.longitude data in
  RedisService.geoadd "drivers" lng lat id ;;
  if isGhost id then resolve (ghostProfile id ONLINE (Some lat) (Some lng))
  else
    let* profile := Prisma.transaction (Prisma.update id (locationData lat lng)) in
    resolve (mapToResponse profile).

Definition h3_unavailable : Exception :=
  Error "H3 implementation not yet available. Set USE_H3=false to use pre-tuning mode.".

Definition toEntry (r : Geo.Reply) : NearbyDriver.t :=
  NearbyDriver.mk (Geo.member r) (Geo.distance r).

(** [parseInt(process.env.MAX_DRIVER_SEARCH_COUNT || '1000')] *)
Definition maxSearchCount (env : Env.t) : option Z :=
  Js.parseInt (Js.or_string (Env.MAX_DRIVER_SEARCH_COUNT env) "1000").

(** [process.env.PREFER_REAL_DRIVERS !== 'false'] *)
Definition preferRealDrivers (env : Env.t) : bool :=
  negb (bool_decide (Env.PREFER_REAL_DRIVERS env = Some "false")).

(** The block that fills [results] from [allResults]. *)
Definition results (preferReal : bool) (count : Z) (allResults : list Geo.Reply)
    : list Geo.Reply :=
  let realDrivers := List.filter (λ r, negb (isGhost (Geo.member r))) allResults in
  let ghostDrivers := List.filter (λ r, isGhost (Geo.member r)) allResults in
  if preferReal then
    let realSlice := Js.slice0 realDrivers count in
    let remainingSlots := Js.max0 (count - Z.of_nat (length realSlice)) in
    let ghostSlice := Js.slice0 ghostDrivers remainingSlots in
    (realSlice ++ ghostSlice)%list
  else Js.slice0 allResults count.

Definition searchNearbyDrivers (env : Env.t) (data : NearbyQuery.t)
    : Async (list NearbyDriver.t) :=
  let useH3 := bool_decide (Env.USE_H3 env = Some "true") in
  if useH3 then reject h3_unavailable
  else
    let* allResults :=
      RedisService.geosearchLarge "drivers"
        (NearbyQuery.longitude data) (NearbyQuery.latitude data)
        (NearbyQuery.radiusKm data) (maxSearchCount env) in
    resolve (toEntry <$> results (preferRealDrivers env) (NearbyQuery.count data) allResults).

Definition deleteDriver (userId : string) : Async DeleteResult.t :=
  try_catch
    (Prisma.transaction (Prisma.delete userId) ;;
     try_catch
       (RedisService.geoadd "drivers" 0 0 userId ;; resolve tt)
       (λ error, resolve tt) ;;
     resolve (DeleteResult.mk true "Driver deleted successfully"))
    (λ error,
       resolve (DeleteResult.mk false
                  (Js.or_string (Some (message error)) "Failed to delete driver"))).
End Service.
End DriverService.

(** ** Worlds and a metric for worked examples *)

Module Sample.

(** 111.195 km per degree (6371 km · π / 180), summed over the two
    axes: up to rounding this is the great-circle distance between
    positions on one meridian, which is where the examples put theirs. *)
Definition meridian : Geo.Metric :=
  λ a b,
    (111.195 * (Qabs (Geo.latitude a - Geo.latitude b)
                + Qabs (Geo.longitude a - Geo.longitude b)))%Q.

(** Positions are written [at_ longitude latitude]. *)
Definition at_ (lon lat : Q) : Geo.Position := Geo.mk lon lat.

(** A healthy Redis holding [zset] under 'drivers', a healthy database
    holding [table], nothing sent yet. *)
Definition world (zset : gmap string Geo.Position)
    (table : gmap string DriverProfile.t) : World :=
  mkWorld None {[ "drivers" := zset ]} None table [].

Definition row (id : string) : DriverProfile.t :=
  DriverProfile.mk id "An" "an@uit.go" "+84000000001" MOTOBIKE "59-X1 000.01"
    "DL-1" ONLINE 5 0 None None.

(** One real driver about 2.2 km north of the origin and one ghost about
    110 m north of it. *)
Definition far_real_near_ghost : World :=
  world {[ "real:1" := at_ 0 0.02; "ghost:1" := at_ 0 0.001 ]} ∅.

(** Two real drivers close to the origin. *)
Definition two_reals : World :=
  world {[ "real:1" := at_ 0 0.001; "real:2" := at_ 0 0.002 ]} ∅.

(** A registered driver who has reported a position in Ho Chi Minh City. *)
Definition one_driver : World :=
  world {[ "d1" := at_ 106.7 10.77 ]} {[ "d1" := row "d1" ]}.

(** The scenario of the design notes: one real driver and five ghosts
    within 0.01 degrees of it. *)
Definition cluster : World :=
  world {[ "real:1" := at_ 106.7 10.77;
           "ghost:1" := at_ 106.7 10.771; "ghost:2" := at_ 106.7 10.772;
           "ghost:3" := at_ 106.7 10.773; "ghost:4" := at_ 106.7 10.774;
           "ghost:5" := at_ 106.7 10.775 ]} ∅.

Definition ghostName (i : nat) : string := "ghost:" +:+ pretty i.

(** [n] ghosts on the meridian through the origin, a micro-degree apart,
    starting at the origin. *)
Definition ghosts (n : nat) : gmap string Geo.Position :=
  list_to_map ((λ i : nat, (ghostName i, at_ 0 (inject_Z (Z.of_nat i) / 1000000))) <$> seq 0 n).

(** A thousand ghosts within 111 m of the origin and one real driver
    about 1.1 km from it. *)
Definition crowded : World :=
  world (<[ "real:1" := at_ 0 0.01 ]> (ghosts 1000)) ∅.

End Sample.

(** ** Vocabulary of the properties *)

Section Vocabulary.
Import Geo RedisClient DriverService.
Context {metric : Metric}.

(** The candidates [geosearchLarge] hands to the service. *)
Definition candidates (env : Env.t) (data : NearbyQuery.t) (w : World) : list Reply :=
  search (mk (NearbyQuery.longitude data) (NearbyQuery.latitude data))
    (NearbyQuery.radiusKm data)
    (RedisService.count_option (maxSearchCount env))
    (geoset "drivers" w).

Definition searchCall (env : Env.t) (data : NearbyQuery.t) : Call :=
  GEOSEARCH "drivers" (NearbyQuery.longitude data) (NearbyQuery.latitude data)
    (NearbyQuery.radiusKm data) (RedisService.count_option (maxSearchCount env)).

(** The store serves the query: it is reachable, the centre is a valid
    position and the radius is not negative. *)
Definition served (data : NearbyQuery.t) (w : World) : Prop :=
  redis_fault w = None ∧
  valid_position (NearbyQuery.longitude data) (NearbyQuery.latitude data) = true ∧
  Qle_bool 0 (NearbyQuery.radiusKm data) = true.

(** The real drivers among the candidates the store returned. *)
Definition realCandidates (env : Env.t) (data : NearbyQuery.t) (w : World) : list Reply :=
  List.filter (λ r, negb (isGhost (member r))) (candidates env data w).

(** The real drivers the store holds within the radius, whatever the
    ceiling on the fetch is. *)
Definition realWithinRadius (data : NearbyQuery.t) (w : World) : list Reply :=
  List.filter (λ r, negb (isGhost (member r)))
    (search (mk (NearbyQuery.longitude data) (NearbyQuery.latitude data))
       (NearbyQuery.radiusKm data) None (geoset "drivers" w)).

End Vocabulary.

(** The distances do not decrease from the first entry to the last. *)
Definition nonDecreasing (l : list NearbyDriver.t) : Prop :=
  ∀ i j a b, (i ≤ j)%nat → l !! i = Some a → l !! j = Some b →
    (NearbyDriver.distance a <= NearbyDriver.distance b)%Q.

Definition driverIds (l : list NearbyDriver.t) : list string :=
  NearbyDriver.driverId <$> l.

Definition ghostEntry (e : NearbyDriver.t) : Prop :=
  DriverService.isGhost (NearbyDriver.driverId e) = true.

Definition realEntry (e : NearbyDriver.t) : Prop :=
  DriverService.isGhost (NearbyDriver.driverId e) = false.

(** ** Further methods and revisions of the services *)

(** Property lookup on an object literal: a key that the literal does not
    define falls through to [Object.prototype]. *)
Module JsObject.
Definition prototype_keys : list string :=
  ["constructor"; "__defineGetter__"; "__defineSetter__"; "hasOwnProperty";
   "__lookupGetter__"; "__lookupSetter__"; "isPrototypeOf";
   "propertyIsEnumerable"; "toString"; "valueOf"; "__proto__"; "toLocaleString"].

Definition inherited (key : string) : bool :=
  bool_decide (key ∈ prototype_keys).
End JsObject.

Module UpdateProfileRequest.
(** [None] is an [undefined] field. *)
Record t := mk {
  userId : string;
  name : option string;
  email : option string;
  phone : option string;
  vehicleType : option string;
  licensePlate : option string;
  licenseNumber : option string;
  balance : option Q
}.
End UpdateProfileRequest.

Module DriverServiceProfile.
Import DriverService.

(** What [vehicleTypeMap[key] || VehicleType.MOTOBIKE] evaluates to for the
    literal [{ [0]: MOTOBIKE, [1]: BIKE }]: a member of the enum, or a
    truthy value inherited from [Object.prototype], which is no member. *)
Definition vehicleTypeMap (key : string) : option VehicleType :=
  if decide (key = "0") then Some MOTOBIKE
  else if decide (key = "1") then Some BIKE
  else if JsObject.inherited key then None
  else Some MOTOBIKE.

(** Prisma's client-side validation error (it carries no code): raised
    before any statement is sent. *)
Definition validation_error : Exception :=
  PrismaError "" "Invalid value for argument `vehicleType`. Expected VehicleType.".

(** The [updateData] that is built for a request whose vehicle type, if
    given, maps to [vt]. *)
Definition updateData (request : UpdateProfileRequest.t) (vt : option VehicleType)
    (row : DriverProfile.t) : DriverProfile.t :=
  DriverProfile.mk
    (DriverProfile.userId row)
    (default (DriverProfile.name row) (UpdateProfileRequest.name request))
    (default (DriverProfile.email row) (UpdateProfileRequest.email request))
    (default (DriverProfile.phone row) (UpdateProfileRequest.phone request))
    (default (DriverProfile.vehicleType row) vt)
    (default (DriverProfile.licensePlate row) (UpdateProfileRequest.licensePlate request))
    (default (DriverProfile.licenseNumber row) (UpdateProfileRequest.licenseNumber request))
    (DriverProfile.status row)
    (DriverProfile.rating row)
    (default (DriverProfile.balance row) (UpdateProfileRequest.balance request))
    (DriverProfile.lastLat row)
    (DriverProfile.lastLng row).

Definition updateProfile (request : UpdateProfileRequest.t) : Async DriverProfileResponse.t :=
  let id := UpdateProfileRequest.userId request in
  match UpdateProfileRequest.vehicleType request with
  | Some key =>
      match vehicleTypeMap key with
      | Some vt =>
          let* profile := Prisma.update id (updateData request (Some vt)) in
          resolve (mapToResponse profile)
      | None => reject validation_error
      end
  | None =>
      let* profile := Prisma.update id (updateData request None) in
      resolve (mapToResponse profile)
  end.
End DriverServiceProfile.

(** The earlier revision of driver.service.ts, whose search hands the
    requested count to [geosearch] and returns the reply as it is. *)
Module DriverServiceV1.
Section Service.
Context {metric : Geo.Metric}.

Definition searchNearbyDrivers (data : NearbyQuery.t) : Async (list NearbyDriver.t) :=
  let* res :=
    RedisService.geosearch "drivers"
      (NearbyQuery.longitude data) (NearbyQuery.latitude data)
      (NearbyQuery.radiusKm data) (Some (NearbyQuery.count data)) in
  resolve (DriverService.toEntry <$> res).
End Service.
End DriverServiceV1.

(** ** load-tests/utils/test-data.js and mqtt-client.js: identifiers *)

Module TestData.

(** [String(index)] for an index that is a natural number in the range of
    safe integers (up to 2^53 - 1), where it is the decimal numeral. *)
Definition String_ (index : N) : string :=
  NilEmpty.string_of_uint (N.to_uint index).

Fixpoint repeat_string (n : nat) (s : string) : string :=
  match n with
  | O => ""
  | S n' => s +:+ repeat_string n' s
  end.

(** [s.padStart(targetLength, padString)] *)
Definition padStart (s : string) (targetLength : nat) (padString : string) : string :=
  let len := String.length s in
  if (targetLength <=? len)%nat then s
  else if decide (padString = "") then s
  else
    let fillLen := (targetLength - len)%nat in
    String.substring 0 fillLen (repeat_string fillLen padString) +:+ s.

Definition generateUserId (index : N) : string :=
  "k6_test_user_" +:+ padStart (String_ index) 4 "0".

Definition generateDriverId (index : N) : string :=
  "k6_test_driver_" +:+ padStart (String_ index) 4 "0".

(** [MQTT_TOPICS.driverLocation] and [MQTT_TOPICS.driverStatus] *)
Definition driverLocation (driverId : string) : string := "driver/location/" +:+ driverId.
Definition driverStatus (driverId : string) : string := "driver/status/" +:+ driverId.

End TestData.

(** ** Vocabulary of the further properties *)

Section Vocabulary2.
Import Geo RedisClient DriverService.
Context {metric : Metric}.

(** Everything the 'drivers' index holds within the radius of the query,
    nearest first. *)
Definition withinRadius (data : NearbyQuery.t) (w : World) : list Reply :=
  search (mk (NearbyQuery.longitude data) (NearbyQuery.latitude data))
    (NearbyQuery.radiusKm data) None (geoset "drivers" w).

(** The ceiling on the fetch lets every member of the index through. *)
Definition uncapped (env : Env.t) (w : World) : Prop :=
  match RedisService.count_option (maxSearchCount env) with
  | Some n => Z.of_nat (size (geoset "drivers" w)) ≤ n
  | None => True
  end.
End Vocabulary2.

(** The Redis commands among the calls. *)
Definition redisCall (c : Call) : bool :=
  match c with
  | GEOADD _ _ _ _ | GEOSEARCH _ _ _ _ _ => true
  | FindUnique _ | Update _ | Delete _ => false
  end.

(** The index of a generated identifier: what follows the prefix, read as
    a decimal number. *)
Definition indexOf (prefix id : string) : option N :=
  if String.prefix prefix id
  then N.of_uint <$> NilEmpty.uint_of_string
         (String.substring (String.length prefix)
            (String.length id - String.length prefix) id)
  else None.

(** The entry for a driver on the meridian through the origin, at the
    given latitude, in a result of a search around the origin under
    [Sample.meridian]. *)
Definition north (id : string) (lat : Q) : NearbyDriver.t :=
  NearbyDriver.mk id (111.195 * (Qabs (0 - lat) + Qabs (0 - 0)))%Q.

(** * Properties of the model *)

(** ** The built-ins on examples *)

Example parseInt_1000 : Js.parseInt "1000" = Some 1000.
Proof. reflexivity. Qed.

Example parseInt_junk : Js.parseInt "abc" = None.
Proof. reflexivity. Qed.

Example parseInt_prefix : Js.parseInt " -12px" = Some (-12).
Proof. reflexivity. Qed.

Example slice0_negative : Js.slice0 [1; 2; 3] (-1) = [1; 2].
Proof. reflexivity. Qed.

Example slice0_long : Js.slice0 [1; 2; 3] 7 = [1; 2; 3].
Proof. reflexivity. Qed.

(** Three drivers around the real one, real drivers preferred: the real
    driver first, then the two nearest ghosts. *)
Example search_cluster :
  fmap (M := option) driverIds
    (resolved (DriverService.searchNearbyDrivers (metric := Sample.meridian)
                 Env.unset (NearbyQuery.mk 10.77 106.7 5 3) Sample.cluster))
  = Some ["real:1"; "ghost:1"; "ghost:2"].
Proof. vm_compute. reflexivity. Qed.

(** ** The order of a GEOSEARCH reply *)

Section Order.
Import Geo RedisClient.

#[global] Instance nearer_total : Total nearer.
Proof.
  intros a b. unfold nearer.
  destruct (Qlt_le_dec (distance b) (distance a)) as [Hlt|Hle].
  - right. apply Is_true_true, Qle_bool_iff, Qlt_le_weak, Hlt.
  - left. apply Is_true_true, Qle_bool_iff, Hle.
Qed.

#[global] Instance nearer_trans : Transitive nearer.
Proof.
  intros a b c Hab Hbc. unfold nearer in *.
  apply Is_true_true, Qle_bool_iff.
  apply Is_true_true, Qle_bool_iff in Hab.
  apply Is_true_true, Qle_bool_iff in Hbc.
  eapply Qle_trans; eassumption.
Qed.

Lemma nearer_Qle (a b : Reply) : nearer a b ↔ (distance a <= distance b)%Q.
Proof. unfold nearer. rewrite Is_true_true. apply Qle_bool_iff. Qed.

Lemma StronglySorted_filter {A} (R : relation A) (f : A → bool) (l : list A) :
  StronglySorted R l → StronglySorted R (List.filter f l).
Proof.
  induction 1 as [|x l Hl IH Hx]; simpl; [constructor|].
  destruct (f x); [|exact IH].
  constructor; [exact IH|].
  rewrite Forall_forall in Hx |- *.
  intros y Hy. apply Hx.
  apply list_elem_of_In in Hy. apply filter_In in Hy.
  apply list_elem_of_In. tauto.
Qed.

Lemma StronglySorted_take {A} (R : relation A) (n : nat) (l : list A) :
  StronglySorted R l → StronglySorted R (take n l).
Proof.
  intros Hl. revert n.
  induction Hl as [|x l Hl IH Hx]; intros [|n]; simpl; try constructor.
  - apply IH.
  - rewrite Forall_forall in Hx |- *.
    intros y Hy. apply Hx.
    apply elem_of_take in Hy as (i & Hi & _).
    eapply list_elem_of_lookup_2, Hi.
Qed.

Lemma StronglySorted_slice0 {A} (R : relation A) (l : list A) (n : Z) :
  StronglySorted R l → StronglySorted R (Js.slice0 l n).
Proof. apply StronglySorted_take. Qed.

Lemma StronglySorted_lookup {A} (R : relation A) `{!Reflexive R} (l : list A) i j a b :
  StronglySorted R l → (i ≤ j)%nat → l !! i = Some a → l !! j = Some b → R a b.
Proof.
  intros Hl. revert i j.
  induction Hl as [|x l Hl IH Hx]; intros i j Hij Hi Hj; [done|].
  destruct i as [|i], j as [|j]; simpl in *; simplify_eq.
  - reflexivity.
  - rewrite Forall_forall in Hx. apply Hx. eapply list_elem_of_lookup_2; eauto.
  - lia.
  - eapply IH; [|eassumption..]. lia.
Qed.

Context {metric : Metric}.

Lemma search_sorted centre radiusKm count zset :
  StronglySorted nearer (search centre radiusKm count zset).
Proof.
  unfold search, limit.
  pose proof (StronglySorted_merge_sort nearer
    (List.filter (in_radius radiusKm) (measured centre zset))) as Hs.
  destruct count; [apply StronglySorted_take|]; exact Hs.
Qed.
End Order.

(** ** What a nearby search evaluates to *)

Section SearchFacts.
Import Geo RedisClient DriverService.
Context {metric : Metric}.

Lemma rebuild_replies (l : list Reply) :
  (λ r, reply (member r) (distance r)) <$> l = l.
Proof. induction l as [|[m d] l IH]; [done|]. by rewrite fmap_cons, IH. Qed.

Lemma count_option_good maxCount : bad_limit (RedisService.count_option maxCount) = false.
Proof.
  destruct maxCount as [n|]; simpl; [|done].
  destruct (bool_decide (n ≠ 0) && (0 <? n)) eqn:E; simpl; [|done].
  apply andb_true_iff in E as [_ E]. apply Z.ltb_lt in E. apply Z.leb_gt, E.
Qed.

Lemma searchNearbyDrivers_flat env data w :
  Env.USE_H3 env ≠ Some "true" → served data w →
  searchNearbyDrivers env data w =
    (Return (toEntry <$> results (preferRealDrivers env) (NearbyQuery.count data)
               (candidates env data w)),
     record (searchCall env data) w).
Proof.
  intros Hflat (Hup & Hpos & Hrad).
  unfold searchNearbyDrivers. rewrite bool_decide_eq_false_2 by done.
  unfold await, RedisService.geosearchLarge, await, geoSearchWith, resolve; simpl.
  rewrite Hup, Hpos, Hrad, count_option_good; simpl.
  by rewrite rebuild_replies.
Qed.

Lemma searchNearbyDrivers_Return env data w l w' :
  searchNearbyDrivers env data w = (Return l, w') →
  Env.USE_H3 env ≠ Some "true" ∧ served data w ∧
  l = toEntry <$> results (preferRealDrivers env) (NearbyQuery.count data)
        (candidates env data w) ∧
  w' = record (searchCall env data) w.
Proof.
  unfold searchNearbyDrivers. case_bool_decide as Hh3; [done|].
  unfold await, RedisService.geosearchLarge, await, geoSearchWith, resolve, served; simpl.
  destruct (redis_fault w) as [e|]; [done|].
  destruct (valid_position _ _); [|done].
  destruct (Qle_bool 0 _); [|done].
  rewrite count_option_good; simpl. rewrite rebuild_replies.
  intros [= <- <-]. done.
Qed.
End SearchFacts.

(** ** Distance order of a search result (C1) *)

Section DistanceOrder.
Import Geo RedisClient DriverService.

#[local] Instance nearer_refl : Reflexive nearer.
Proof. intros a. apply nearer_Qle, Qle_refl. Qed.

Lemma sorted_entries (rs : list Reply) :
  StronglySorted nearer rs → nonDecreasing (toEntry <$> rs).
Proof.
  intros Hs i j a b Hij Hi Hj.
  rewrite list_lookup_fmap in Hi, Hj.
  destruct (rs !! i) as [ra|] eqn:Ea; [|done].
  destruct (rs !! j) as [rb|] eqn:Eb; [|done].
  simpl in Hi, Hj. simplify_eq. simpl.
  apply nearer_Qle. eapply (StronglySorted_lookup nearer); eauto.
Qed.

Lemma filter_entries (f : string → bool) (b : bool) (rs : list Reply) (n : Z) :
  Forall (λ e, f (NearbyDriver.driverId e) = b)
    (toEntry <$> Js.slice0 (List.filter (λ r, bool_decide (f (member r) = b)) rs) n).
Proof.
  apply Forall_fmap, Forall_forall. intros r Hr. simpl.
  apply list_elem_of_In in Hr.
  assert (In r (List.filter (λ r, bool_decide (f (member r) = b)) rs)) as Hin.
  { apply list_elem_of_In. apply list_elem_of_In in Hr.
    unfold Js.slice0 in Hr. apply elem_of_take in Hr as (i & Hi & _).
    eapply list_elem_of_lookup_2, Hi. }
  apply filter_In in Hin as [_ Hf]. by apply bool_decide_eq_true in Hf.
Qed.

Lemma filter_ext_bool {A} (f g : A → bool) (l : list A) :
  (∀ x, f x = g x) → List.filter f l = List.filter g l.
Proof. intros E. induction l as [|x l IH]; simpl; [done|]. by rewrite E, IH. Qed.

Context {metric : Metric}.

Lemma candidates_sorted env data w : StronglySorted nearer (candidates env data w).
Proof. apply search_sorted. Qed.

(** C1, as the code has it: a successful search that does not prefer real
    drivers returns distances in non-decreasing order; one that prefers
    them returns the real drivers first and the ghosts after them, each
    of the two runs in non-decreasing order of distance. *)
Theorem searchNearbyDrivers_distance_order env data w l w' :
  searchNearbyDrivers env data w = (Return l, w') →
  (Env.PREFER_REAL_DRIVERS env = Some "false" → nonDecreasing l) ∧
  (Env.PREFER_REAL_DRIVERS env ≠ Some "false" →
     ∃ reals ghosts,
       l = (reals ++ ghosts)%list ∧
       Forall realEntry reals ∧ Forall ghostEntry ghosts ∧
       nonDecreasing reals ∧ nonDecreasing ghosts).
Proof.
  intros Hrun. apply searchNearbyDrivers_Return in Hrun as (_ & _ & -> & _).
  pose proof (candidates_sorted env data w) as Hs.
  unfold preferRealDrivers, results. split; intros Hpref.
  - rewrite bool_decide_eq_true_2 by done. simpl.
    by apply sorted_entries, StronglySorted_slice0.
  - rewrite bool_decide_eq_false_2 by done. simpl.
    rewrite fmap_app. eexists _, _. split; [reflexivity|].
    split; [|split; [|split]].
    + rewrite (filter_ext_bool _ (λ r, bool_decide (isGhost (member r) = false))).
      * apply (filter_entries isGhost false).
      * intros r. by destruct (isGhost (member r)).
    + rewrite (filter_ext_bool (λ r, isGhost (member r))
                 (λ r, bool_decide (isGhost (member r) = true))).
      * apply (filter_entries isGhost true).
      * intros r. by destruct (isGhost (member r)).
    + by apply sorted_entries, StronglySorted_slice0, StronglySorted_filter.
    + by apply sorted_entries, StronglySorted_slice0, StronglySorted_filter.
Qed.
End DistanceOrder.

Lemma searchNearbyDrivers_distance_order_witness :
  nonDecreasing
    [NearbyDriver.mk "ghost:1" (111.195 * (Qabs (0 - 0.001) + Qabs (0 - 0)));
     NearbyDriver.mk "real:1" (111.195 * (Qabs (0 - 0.02) + Qabs (0 - 0)))].
Proof.
  refine (proj1 (searchNearbyDrivers_distance_order (metric := Sample.meridian)
                   (Env.mk None None (Some "false")) (NearbyQuery.mk 0 0 5 2)
                   Sample.far_real_near_ghost _ _ _) _).
  - vm_compute. reflexivity.
  - reflexivity.
Defined.

(** C1 as stated fails when real drivers are preferred (the default): the
    real driver 2.2 km away is listed before the ghost 110 m away. *)
Lemma distance_order_counterexample :
  ∃ l w',
    DriverService.searchNearbyDrivers (metric := Sample.meridian) Env.unset
      (NearbyQuery.mk 0 0 5 2) Sample.far_real_near_ghost = (Return l, w') ∧
    NearbyDriver.driverId <$> l = ["real:1"; "ghost:1"] ∧
    ¬ nonDecreasing l.
Proof.
  eexists _, _. split; [vm_compute; reflexivity|].
  split; [reflexivity|].
  intros Hnd. specialize (Hnd 0%nat 1%nat _ _ (le_S _ _ (le_n _)) eq_refl eq_refl).
  vm_compute in Hnd. by apply Hnd.
Qed.

(** ** Real drivers before ghosts (C2) *)

Section OverlayPriority.
Import Geo RedisClient DriverService.
Context {metric : Metric}.

Lemma length_slice0 {A} (l : list A) (n : Z) :
  0 ≤ n ≤ Z.of_nat (length l) → Z.of_nat (length (Js.slice0 l n)) = n.
Proof.
  intros Hn. unfold Js.slice0.
  destruct (n <? 0) eqn:E; [apply Z.ltb_lt in E; lia|].
  rewrite length_take. lia.
Qed.

Lemma slice0_zero {A} (l : list A) : Js.slice0 l 0 = [].
Proof.
  unfold Js.slice0. simpl.
  replace (Z.to_nat (Z.min 0 (Z.of_nat (length l)))) with 0%nat by lia.
  done.
Qed.

Lemma results_all_real count allResults :
  count ≤ Z.of_nat (length (List.filter (λ r, negb (isGhost (member r))) allResults)) →
  results true count allResults =
    Js.slice0 (List.filter (λ r, negb (isGhost (member r))) allResults) count.
Proof.
  intros Hc. unfold results.
  set (reals := List.filter _ allResults) in *.
  assert (Js.max0 (count - Z.of_nat (length (Js.slice0 reals count))) = 0) as ->.
  { unfold Js.max0. destruct (Z.le_gt_cases 0 count).
    - rewrite length_slice0 by lia. lia.
    - lia. }
  by rewrite slice0_zero, app_nil_r.
Qed.

(** C2, as the code has it: when real drivers are preferred and at least
    [count] real drivers are among the candidates fetched from the store
    (the nearest points within the radius, up to the ceiling
    MAX_DRIVER_SEARCH_COUNT), the result holds no ghost. *)
Theorem searchNearbyDrivers_overlay_priority env data w l w' :
  searchNearbyDrivers env data w = (Return l, w') →
  Env.PREFER_REAL_DRIVERS env ≠ Some "false" →
  NearbyQuery.count data ≤ Z.of_nat (length (realCandidates env data w)) →
  Forall realEntry l.
Proof.
  intros Hrun Hpref Hcount.
  apply searchNearbyDrivers_Return in Hrun as (_ & _ & -> & _).
  unfold preferRealDrivers. rewrite bool_decide_eq_false_2 by done. cbn [negb].
  rewrite results_all_real by exact Hcount.
  rewrite (filter_ext_bool _ (λ r, bool_decide (isGhost (member r) = false))).
  - apply (filter_entries isGhost false).
  - intros r. by destruct (isGhost (member r)).
Qed.
End OverlayPriority.

Lemma searchNearbyDrivers_overlay_priority_witness :
  Forall realEntry
    [NearbyDriver.mk "real:1" (111.195 * (Qabs (0 - 0.02) + Qabs (0 - 0)))].
Proof.
  refine (searchNearbyDrivers_overlay_priority (metric := Sample.meridian)
            Env.unset (NearbyQuery.mk 0 0 5 1) Sample.far_real_near_ghost _ _ _ _ _).
  - vm_compute. reflexivity.
  - discriminate.
  - vm_compute. discriminate.
Defined.

(** C2 as stated fails under the default ceiling of 1000: real drivers
    are preferred, one driver is asked for, the real driver real:1 lies
    within the 5 km radius, and the result is the ghost at the centre,
    because the thousand nearest points are ghosts. *)
Lemma overlay_priority_counterexample :
  let data := NearbyQuery.mk 0 0 5 1 in
  DriverService.preferRealDrivers Env.unset = true ∧
  fmap (M := list) Geo.member
    (realWithinRadius (metric := Sample.meridian) data Sample.crowded)
    = ["real:1"] ∧
  fmap (M := option) driverIds
    (resolved (DriverService.searchNearbyDrivers (metric := Sample.meridian)
                 Env.unset data Sample.crowded))
    = Some ["ghost:0"] ∧
  DriverService.isGhost "ghost:0" = true.
Proof.
  split; [reflexivity|]. split; [vm_compute; reflexivity|].
  split; [vm_compute; reflexivity|reflexivity].
Qed.

(** ** Deregistration and the geo index (C3) *)

Section Deregistration.
Import Geo RedisClient DriverService.

(** What the cleanup step of [deleteDriver] does to the index: the
    member is set to position (0, 0), present or not before. *)
Lemma deleteDriver_moves_member userId w :
  redis_fault w = None → db_fault w = None →
  is_Some (driverProfile w !! userId) →
  geoset "drivers" (deleteDriver userId w).2 !! userId = Some (mk 0 0).
Proof.
  intros Hr Hd [row Hrow].
  unfold deleteDriver, try_catch, await, Prisma.transaction, Prisma.delete,
    RedisService.geoadd, geoAdd, resolve; simpl.
  rewrite Hd, Hrow; simpl. rewrite Hr; simpl.
  unfold geoset; simpl. rewrite lookup_insert_eq; simpl.
  by rewrite lookup_insert_eq.
Qed.
End Deregistration.

(** C3 on the code: driver d1 is registered and has a position.
    [deleteDriver] reports success, and afterwards d1 is a member of the
    'drivers' index at position (0, 0) and a radius search around that
    position returns it. *)
Theorem deleteDriver_leaves_member_in_index :
  ∃ w' l w'',
    DriverService.deleteDriver "d1" Sample.one_driver
      = (Return (DeleteResult.mk true "Driver deleted successfully"), w') ∧
    driverProfile w' !! "d1" = None ∧
    RedisClient.geoset "drivers" w' !! "d1" = Some (Geo.mk 0 0) ∧
    DriverService.searchNearbyDrivers (metric := Sample.meridian) Env.unset
      (NearbyQuery.mk 0 0 1 10) w' = (Return l, w'') ∧
    NearbyDriver.driverId <$> l = ["d1"].
Proof.
  eexists _, _, _. split; [vm_compute; reflexivity|].
  split; [reflexivity|]. split; [reflexivity|].
  split; [vm_compute; reflexivity|]. reflexivity.
Qed.

(** ** Coordinates out of range (C4) *)

Section Coordinates.
Import Geo RedisClient DriverService.

Lemma Qle_bool_false (x y : Q) : (y < x)%Q → Qle_bool x y = false.
Proof.
  intros Hlt. destruct (Qle_bool x y) eqn:E; [|done].
  apply Qle_bool_iff in E. by apply Qlt_not_le in Hlt.
Qed.

Lemma out_of_range_invalid (lon lat : Q) :
  (lon < -180 ∨ 180 < lon ∨ lat < -90 ∨ 90 < lat)%Q →
  valid_position lon lat = false.
Proof.
  unfold valid_position. intros [Hlo|[Hlo|[Hla|Hla]]].
  - by rewrite (Qle_bool_false _ _ Hlo).
  - rewrite (Qle_bool_false _ _ Hlo). by rewrite andb_false_r.
  - assert (lat < -85.05112878)%Q as Hlt by (eapply Qlt_trans; [exact Hla|done]).
    rewrite (Qle_bool_false _ _ Hlt). by rewrite andb_false_r.
  - assert (85.05112878 < lat)%Q as Hlt by (eapply Qlt_trans; [|exact Hla]; done).
    rewrite (Qle_bool_false _ _ Hlt). by rewrite andb_false_r.
Qed.

(** C4, as the code has it: [updateLocation] checks no range itself.
    For a longitude outside [-180, 180] or a latitude outside [-90, 90]
    it sends GEOADD to the store like for any other pair; the call
    fails (with the store's error reply when the store is reachable),
    and the geo index and the database are as they were. *)
Theorem updateLocation_out_of_range data w :
  let id := UpdateLocationRequest.driverId data in
  let lon := UpdateLocationRequest.longitude data in
  let lat := UpdateLocationRequest.latitude data in
  (lon < -180 ∨ 180 < lon ∨ lat < -90 ∨ 90 < lat)%Q →
  ∃ e w',
    updateLocation data w = (Throw e, w') ∧
    (redis_fault w = None → e = invalid_pair) ∧
    trace w' = (trace w ++ [GEOADD "drivers" lon lat id])%list ∧
    redis_keys w' = redis_keys w ∧
    driverProfile w' = driverProfile w.
Proof.
  intros id lon lat Hout. apply out_of_range_invalid in Hout.
  unfold updateLocation, await, RedisService.geoadd, geoAdd; simpl.
  fold id lon lat. rewrite Hout.
  destruct (redis_fault w) as [e|]; eexists _, _; (split; [reflexivity|]); simpl; done.
Qed.
End Coordinates.

Lemma updateLocation_out_of_range_witness :
  ∃ e w',
    DriverService.updateLocation (UpdateLocationRequest.mk "d1" 10 200) (Sample.world ∅ ∅)
      = (Throw e, w') ∧
    (redis_fault (Sample.world ∅ ∅) = None → e = RedisClient.invalid_pair) ∧
    trace w' = (trace (Sample.world ∅ ∅) ++ [GEOADD "drivers" 200 10 "d1"])%list ∧
    redis_keys w' = redis_keys (Sample.world ∅ ∅) ∧
    driverProfile w' = driverProfile (Sample.world ∅ ∅).
Proof.
  apply (updateLocation_out_of_range (UpdateLocationRequest.mk "d1" 10 200) (Sample.world ∅ ∅)).
  right. left. reflexivity.
Defined.

(** C4 as stated fails: the report of longitude 200 is not turned down
    before the store is involved.  The GEOADD for it is sent, and the
    error of the call is the store's reply to it. *)
Lemma invalid_longitude_reaches_store :
  ∃ w',
    DriverService.updateLocation (UpdateLocationRequest.mk "d1" 10 200) (Sample.world ∅ ∅)
      = (Throw (ReplyError "ERR invalid longitude,latitude pair"), w') ∧
    trace w' = [GEOADD "drivers" 200 10 "d1"].
Proof. eexists. split; [vm_compute; reflexivity|reflexivity]. Qed.

(** ** Capacity of a result (C5) *)

Section Capacity.
Import Geo RedisClient DriverService.
Context {metric : Metric}.

Lemma length_slice0_le {A} (l : list A) (n : Z) :
  0 ≤ n → Z.of_nat (length (Js.slice0 l n)) ≤ n.
Proof.
  intros Hn. unfold Js.slice0.
  destruct (n <? 0) eqn:E; [apply Z.ltb_lt in E; lia|].
  rewrite length_take. lia.
Qed.

Lemma length_results (preferReal : bool) (count : Z) (allResults : list Reply) :
  0 ≤ count → Z.of_nat (length (results preferReal count allResults)) ≤ count.
Proof.
  intros Hc. unfold results. destruct preferReal.
  - rewrite length_app, Nat2Z.inj_add.
    set (reals := Js.slice0 (List.filter _ allResults) count).
    pose proof (length_slice0_le (List.filter (λ r, negb (isGhost (member r))) allResults)
                  count Hc) as Hreal.
    fold reals in Hreal.
    pose proof (length_slice0_le (List.filter (λ r, isGhost (member r)) allResults)
                  (Js.max0 (count - Z.of_nat (length reals)))) as Hghost.
    unfold Js.max0 in *. lia.
  - by apply length_slice0_le.
Qed.

(** A count that is not negative bounds the length of every successful
    result; a count of 0 gives the empty list. *)
Lemma searchNearbyDrivers_capacity env data w l w' :
  searchNearbyDrivers env data w = (Return l, w') →
  0 ≤ NearbyQuery.count data →
  Z.of_nat (length l) ≤ NearbyQuery.count data.
Proof.
  intros Hrun Hc. apply searchNearbyDrivers_Return in Hrun as (_ & _ & -> & _).
  rewrite length_fmap. by apply length_results.
Qed.
End Capacity.

(** C5 on the code: two real drivers are within the radius and the count
    asked for is -1.  The result holds one driver: it is longer than the
    count, and not empty. *)
Theorem searchNearbyDrivers_negative_count :
  ∃ l w',
    DriverService.searchNearbyDrivers (metric := Sample.meridian) Env.unset
      (NearbyQuery.mk 0 0 5 (-1)) Sample.two_reals = (Return l, w') ∧
    NearbyDriver.driverId <$> l = ["real:1"] ∧
    ¬ (Z.of_nat (length l) ≤ -1) ∧
    l ≠ [].
Proof.
  eexists _, _. split; [vm_compute; reflexivity|].
  split; [reflexivity|]. split; [simpl; lia|discriminate].
Qed.

(** ** The hierarchical strategy (C6, C7) *)

Section Strategy.
Import Geo RedisClient DriverService.
Context {metric : Metric}.

(** C6: with USE_H3=true the search rejects at once with the error that
    the H3 strategy is not available; the world it returns is the one it
    was given, so no command was sent to the store and no flat scan ran
    in its place. *)
Theorem searchNearbyDrivers_h3_unavailable env data w :
  Env.USE_H3 env = Some "true" →
  searchNearbyDrivers env data w = (Throw h3_unavailable, w).
Proof.
  intros Hh3. unfold searchNearbyDrivers.
  by rewrite bool_decide_eq_true_2.
Qed.

(** C7, as the code has it: the hierarchical strategy answers no query.
    Whenever the store serves a query, the flat scan resolves to a
    result for it and the hierarchical strategy rejects, so the two
    never return the same set of ids. *)
Theorem strategies_disagree flat hier data w :
  Env.USE_H3 flat ≠ Some "true" → Env.USE_H3 hier = Some "true" →
  served data w →
  (∃ l w', searchNearbyDrivers flat data w = (Return l, w')) ∧
  (∀ l w', searchNearbyDrivers hier data w ≠ (Return l, w')).
Proof.
  intros Hflat Hhier Hserved. split.
  - eexists _, _. by apply searchNearbyDrivers_flat.
  - intros l w' Hrun. apply searchNearbyDrivers_Return in Hrun as (Hno & _). done.
Qed.
End Strategy.

Lemma searchNearbyDrivers_h3_unavailable_witness :
  DriverService.searchNearbyDrivers (metric := Sample.meridian)
    (Env.mk (Some "true") None None) (NearbyQuery.mk 10.77 106.7 5 10) Sample.one_driver
  = (Throw DriverService.h3_unavailable, Sample.one_driver).
Proof.
  apply (searchNearbyDrivers_h3_unavailable (metric := Sample.meridian)).
  reflexivity.
Defined.

Lemma strategies_disagree_witness :
  let data := NearbyQuery.mk 10.77 106.7 5 10 in
  (∃ l w', DriverService.searchNearbyDrivers (metric := Sample.meridian)
             Env.unset data Sample.one_driver = (Return l, w')) ∧
  (∀ l w', DriverService.searchNearbyDrivers (metric := Sample.meridian)
             (Env.mk (Some "true") None None) data Sample.one_driver ≠ (Return l, w')).
Proof.
  apply (strategies_disagree (metric := Sample.meridian)).
  - discriminate.
  - reflexivity.
  - repeat split.
Defined.

(** C7 as stated fails: for one stored driver and a query around its
    position the flat scan returns the driver and the hierarchical
    strategy returns no result at all. *)
Lemma strategy_equivalence_counterexample :
  let data := NearbyQuery.mk 10.77 106.7 5 10 in
  (∃ l w', DriverService.searchNearbyDrivers (metric := Sample.meridian)
             Env.unset data Sample.one_driver = (Return l, w') ∧
           NearbyDriver.driverId <$> l = ["d1"]) ∧
  DriverService.searchNearbyDrivers (metric := Sample.meridian)
    (Env.mk (Some "true") None None) data Sample.one_driver
  = (Throw DriverService.h3_unavailable, Sample.one_driver).
Proof.
  split; [|reflexivity].
  eexists _, _. split; [vm_compute; reflexivity|reflexivity].
Qed.

(** ** Reporting the same location twice (C8) *)

Section Idempotence.
Import Geo RedisClient DriverService.

(** C8: a second report of the same coordinates for the same id leaves
    the geo index and the database table as the first report left them.
    No cell membership index exists beside them. *)
Theorem updateLocation_idempotent data w :
  let once := (updateLocation data w).2 in
  let twice := (updateLocation data once).2 in
  redis_keys twice = redis_keys once ∧ driverProfile twice = driverProfile once.
Proof.
  destruct data as [id lat lng], w as [rf keys df table tr].
  unfold updateLocation, await, RedisService.geoadd, geoAdd, Prisma.transaction,
    Prisma.update, resolve, geoset, record, set_redis_keys, set_driverProfile; simpl.
  destruct rf as [e|]; simpl; [done|].
  destruct (valid_position lng lat); simpl; [|done].
  destruct (isGhost id); simpl.
  - rewrite lookup_insert_eq; simpl. by rewrite !insert_insert_eq.
  - destruct df as [e|]; simpl.
    + rewrite lookup_insert_eq; simpl. by rewrite !insert_insert_eq.
    + destruct (table !! id) as [row|] eqn:Hrow; simpl.
      * rewrite !lookup_insert_eq; simpl. by rewrite !insert_insert_eq.
      * rewrite Hrow, lookup_insert_eq; simpl. by rewrite !insert_insert_eq.
Qed.
End Idempotence.

(** ** Deleting a driver (C9) *)

Section Deletion.
Import DriverService.

(** C9: [deleteDriver] resolves for every id and every world, and never
    rejects.  When the database statement fails, the result is
    [success = false] with the error's message (a fixed text when that
    message is empty); when it succeeds, the result is [success = true],
    also when the Redis step after it fails. *)
Theorem deleteDriver_total userId w :
  ∃ r w',
    deleteDriver userId w = (Return r, w') ∧
    (∀ e, (Prisma.delete userId w).1 = Throw e →
       DeleteResult.success r = false ∧
       DeleteResult.message r = Js.or_string (Some (message e)) "Failed to delete driver" ∧
       (message e ≠ "" → DeleteResult.message r = message e)) ∧
    (∀ row, (Prisma.delete userId w).1 = Return row →
       r = DeleteResult.mk true "Driver deleted successfully").
Proof.
  unfold deleteDriver, try_catch, await, Prisma.transaction, RedisService.geoadd, resolve.
  destruct (Prisma.delete userId w) as [[row|e] w1] eqn:Hdel; simpl.
  - destruct (RedisClient.geoAdd "drivers" 0 0 userId w1) as [[n|e] w2]; simpl;
      eexists _, _; (split; [reflexivity|]); split; intros ? [=]; done.
  - eexists _, _. split; [reflexivity|]. split; [|intros ? [=]].
    intros e' [= <-]. simpl. split; [done|]. split; [done|].
    intros Hne. by destruct (decide (message e = "")).
Qed.
End Deletion.

(** The database holds d1 and the Redis client is down: the deletion
    resolves with [success = true]. *)
Lemma deleteDriver_total_witness :
  ∃ r,
    (DriverService.deleteDriver "d1"
       (mkWorld (Some (ClientError "The client is closed")) ∅ None
          {[ "d1" := Sample.row "d1" ]} [])).1 = Return r ∧
    r = DeleteResult.mk true "Driver deleted successfully".
Proof.
  destruct (deleteDriver_total "d1"
              (mkWorld (Some (ClientError "The client is closed")) ∅ None
                 {[ "d1" := Sample.row "d1" ]} []))
    as (r & w' & Hrun & _ & Hok).
  exists r. split.
  - rewrite Hrun. reflexivity.
  - apply (Hok (Sample.row "d1")). reflexivity.
Defined.

(** ** Ghost profiles (C10) *)

Section Ghosts.
Import DriverService.

(** C10: for an id that starts with 'ghost:', [findOne] resolves to the
    synthetic profile (status ONLINE, rating 4.8, no last position) and
    returns the world it was given, so the database is not asked; an
    [updateStatus] for that id before it changes nothing of this. *)
Theorem findOne_ghost id w :
  Js.startsWith id "ghost:" = true →
  ∃ r,
    findOne id w = (Return r, w) ∧
    DriverProfileResponse.userId r = id ∧
    DriverProfileResponse.status r = ONLINE ∧
    DriverProfileResponse.rating r = 4.8%Q ∧
    DriverProfileResponse.lastLat r = None ∧
    DriverProfileResponse.lastLng r = None ∧
    ∀ st, (updateStatus (UpdateStatusRequest.mk id st) ;; findOne id) w = (Return r, w).
Proof.
  intros Hg. exists (ghostProfile id ONLINE None None).
  unfold findOne, updateStatus, await, isGhost; simpl. rewrite Hg.
  repeat split; done.
Qed.
End Ghosts.

Lemma findOne_ghost_witness :
  ∃ r,
    DriverService.findOne "ghost:42" (Sample.world ∅ ∅) = (Return r, Sample.world ∅ ∅) ∧
    DriverProfileResponse.userId r = "ghost:42" ∧
    DriverProfileResponse.status r = ONLINE ∧
    DriverProfileResponse.rating r = 4.8%Q ∧
    DriverProfileResponse.lastLat r = None ∧
    DriverProfileResponse.lastLng r = None ∧
    ∀ st, (DriverService.updateStatus (UpdateStatusRequest.mk "ghost:42" st) ;;
           DriverService.findOne "ghost:42") (Sample.world ∅ ∅)
          = (Return r, Sample.world ∅ ∅).
Proof. apply (findOne_ghost "ghost:42" (Sample.world ∅ ∅)). reflexivity. Defined.

(** * Further properties *)

(** ** What a nearby search returns *)

Section SearchStructure.
Import Geo RedisClient DriverService.

Lemma elem_of_List_filter {A} (f : A → bool) (l : list A) (x : A) :
  x ∈ List.filter f l ↔ x ∈ l ∧ f x = true.
Proof. rewrite !list_elem_of_In. apply filter_In. Qed.

Lemma sublist_List_filter {A} (f : A → bool) (l : list A) :
  List.filter f l `sublist_of` l.
Proof.
  induction l as [|x l IH]; simpl; [constructor|].
  destruct (f x); by constructor.
Qed.

Lemma sublist_slice0 {A} (l : list A) (n : Z) : Js.slice0 l n `sublist_of` l.
Proof. apply sublist_take. Qed.

Lemma length_slice0_min {A} (l : list A) (n : Z) :
  0 ≤ n → Z.of_nat (length (Js.slice0 l n)) = Z.min n (Z.of_nat (length l)).
Proof.
  intros Hn. unfold Js.slice0.
  destruct (n <? 0) eqn:E; [apply Z.ltb_lt in E; lia|].
  rewrite length_take. lia.
Qed.

Lemma slice0_all {A} (l : list A) (n : Z) :
  Z.of_nat (length l) ≤ n → Js.slice0 l n = l.
Proof.
  intros Hn. unfold Js.slice0.
  destruct (n <? 0) eqn:E; [apply Z.ltb_lt in E; lia|].
  apply take_ge. lia.
Qed.

Lemma length_filter_split {A} (f : A → bool) (l : list A) :
  (length (List.filter (λ x, negb (f x)) l) + length (List.filter f l) = length l)%nat.
Proof.
  induction l as [|x l IH]; simpl; [done|].
  destruct (f x); simpl; lia.
Qed.

Lemma filter_split_Permutation {A} (f : A → bool) (l : list A) :
  (List.filter (λ x, negb (f x)) l ++ List.filter f l)%list ≡ₚ l.
Proof.
  induction l as [|x l IH]; simpl; [done|].
  destruct (f x); simpl.
  - rewrite <- Permutation_middle. by constructor.
  - by constructor.
Qed.

(** The selection never invents an entry. *)
Lemma results_subseteq preferReal count (allResults : list Reply) :
  results preferReal count allResults ⊆ allResults.
Proof.
  unfold results. destruct preferReal.
  - intros r Hr. apply elem_of_app in Hr as [Hr|Hr];
      eapply elem_of_sublist in Hr; try apply sublist_slice0;
      apply elem_of_List_filter in Hr; tauto.
  - apply sublist_subseteq, sublist_slice0.
Qed.

Lemma results_NoDup preferReal count (allResults : list Reply) :
  NoDup (member <$> allResults) →
  NoDup (member <$> results preferReal count allResults).
Proof.
  intros Hnd. unfold results. destruct preferReal.
  - rewrite fmap_app. apply NoDup_app. split; [|split].
    + eapply sublist_NoDup; [exact Hnd|].
      apply fmap_sublist. etrans; [apply sublist_slice0|apply sublist_List_filter].
    + intros m Hreal Hghost.
      apply list_elem_of_fmap in Hreal as (r1 & -> & Hr1).
      apply list_elem_of_fmap in Hghost as (r2 & Heq & Hr2).
      eapply elem_of_sublist in Hr1; [|apply sublist_slice0].
      eapply elem_of_sublist in Hr2; [|apply sublist_slice0].
      apply elem_of_List_filter in Hr1 as [_ Hr1].
      apply elem_of_List_filter in Hr2 as [_ Hr2].
      rewrite Heq, Hr2 in Hr1. done.
    + eapply sublist_NoDup; [exact Hnd|].
      apply fmap_sublist. etrans; [apply sublist_slice0|apply sublist_List_filter].
  - eapply sublist_NoDup; [exact Hnd|].
    apply fmap_sublist, sublist_slice0.
Qed.

Lemma results_length preferReal count (allResults : list Reply) :
  0 ≤ count →
  Z.of_nat (length (results preferReal count allResults))
    = Z.min count (Z.of_nat (length allResults)).
Proof.
  intros Hc. unfold results. destruct preferReal.
  - rewrite length_app, Nat2Z.inj_add.
    pose proof (length_filter_split (λ r, isGhost (member r)) allResults) as Hsplit.
    set (reals := List.filter (λ r, negb (isGhost (member r))) allResults) in *.
    set (ghosts := List.filter (λ r, isGhost (member r)) allResults) in *.
    rewrite (length_slice0_min reals count Hc).
    rewrite length_slice0_min by (unfold Js.max0; lia).
    unfold Js.max0. lia.
  - by apply length_slice0_min.
Qed.

Lemma results_all preferReal count (allResults : list Reply) :
  Z.of_nat (length allResults) ≤ count →
  results preferReal count allResults ≡ₚ allResults.
Proof.
  intros Hc. unfold results.
  pose proof (length_filter_split (λ r, isGhost (member r)) allResults) as Hsplit.
  destruct preferReal.
  - rewrite (slice0_all (List.filter (λ r, negb (isGhost (member r))) allResults)) by lia.
    rewrite slice0_all by (unfold Js.max0; lia).
    apply filter_split_Permutation.
  - by rewrite slice0_all.
Qed.

Context {metric : Metric}.

Lemma elem_of_measured centre (zset : gmap string Position) (r : Reply) :
  r ∈ measured centre zset ↔
  ∃ p, zset !! member r = Some p ∧ distance r = geodist centre p.
Proof.
  unfold measured. rewrite list_elem_of_fmap. split.
  - intros ([m p] & -> & Hmp). apply elem_of_map_to_list in Hmp. by exists p.
  - intros (p & Hp & Hd). exists (member r, p). split.
    + destruct r as [m d]. simpl in *. by rewrite Hd.
    + by apply elem_of_map_to_list.
Qed.

Lemma elem_of_search_all centre radiusKm (zset : gmap string Position) (r : Reply) :
  r ∈ search centre radiusKm None zset ↔
  ∃ p, zset !! member r = Some p ∧ distance r = geodist centre p ∧
       (distance r <= radiusKm)%Q.
Proof.
  unfold search, limit. rewrite merge_sort_Permutation, elem_of_List_filter.
  rewrite elem_of_measured. unfold in_radius. rewrite Qle_bool_iff. split.
  - intros [(p & Hp & Hd) Hle]. by exists p.
  - intros (p & Hp & Hd & Hle). split; [by exists p|done].
Qed.

Lemma search_sublist centre radiusKm count (zset : gmap string Position) :
  search centre radiusKm count zset `sublist_of` search centre radiusKm None zset.
Proof. unfold search, limit. destruct count; [apply sublist_take|done]. Qed.

Lemma search_NoDup centre radiusKm count (zset : gmap string Position) :
  NoDup (member <$> search centre radiusKm count zset).
Proof.
  eapply sublist_NoDup; [|apply fmap_sublist, search_sublist].
  unfold search, limit. rewrite merge_sort_Permutation.
  eapply sublist_NoDup; [|apply fmap_sublist, sublist_List_filter].
  unfold measured. rewrite <- list_fmap_compose.
  apply NoDup_fst_map_to_list.
Qed.

Lemma search_length centre radiusKm n (zset : gmap string Position) :
  0 ≤ n → Z.of_nat (length (search centre radiusKm (Some n) zset)) ≤ n.
Proof. intros Hn. unfold search, limit. rewrite length_take. lia. Qed.

Lemma search_uncapped centre radiusKm n (zset : gmap string Position) :
  Z.of_nat (size zset) ≤ n →
  search centre radiusKm (Some n) zset = search centre radiusKm None zset.
Proof.
  intros Hn. unfold search, limit. apply take_ge.
  rewrite merge_sort_Permutation.
  pose proof (sublist_length _ _ (sublist_List_filter (in_radius radiusKm) (measured centre zset))) as Hle.
  unfold measured in Hle at 2. rewrite length_fmap, length_map_to_list in Hle. lia.
Qed.
End SearchStructure.

Section SearchService.
Import Geo RedisClient DriverService.
Context {metric : Metric}.

Lemma candidates_within env data w :
  candidates env data w `sublist_of` withinRadius data w.
Proof. apply search_sublist. Qed.

Lemma candidates_uncapped env data w :
  uncapped env w → candidates env data w = withinRadius data w.
Proof.
  unfold uncapped, candidates, withinRadius.
  destruct (RedisService.count_option (maxSearchCount env)) as [n|]; [|done].
  apply search_uncapped.
Qed.

Lemma elem_of_entries (rs : list Reply) (e : NearbyDriver.t) :
  e ∈ toEntry <$> rs ↔ reply (NearbyDriver.driverId e) (NearbyDriver.distance e) ∈ rs.
Proof.
  rewrite list_elem_of_fmap. split.
  - intros ([m d] & -> & Hr). done.
  - intros Hr. eexists. split; [|exact Hr]. by destruct e.
Qed.

Lemma driverIds_entries (rs : list Reply) : driverIds (toEntry <$> rs) = member <$> rs.
Proof. unfold driverIds. rewrite <- list_fmap_compose. done. Qed.

(** X1: Every entry of a result is a member of the 'drivers' index, listed
    with its distance from the centre of the query, and that distance is
    within the radius. *)
Theorem searchNearbyDrivers_sound env data w l w' e :
  searchNearbyDrivers env data w = (Return l, w') → e ∈ l →
  ∃ p, geoset "drivers" w !! NearbyDriver.driverId e = Some p ∧
       NearbyDriver.distance e
         = geodist (mk (NearbyQuery.longitude data) (NearbyQuery.latitude data)) p ∧
       (NearbyDriver.distance e <= NearbyQuery.radiusKm data)%Q.
Proof.
  intros Hrun He. apply searchNearbyDrivers_Return in Hrun as (_ & _ & -> & _).
  apply elem_of_entries in He. apply results_subseteq in He.
  eapply elem_of_sublist in He; [|apply candidates_within].
  apply elem_of_search_all in He. exact He.
Qed.

(** X2: No driver is listed twice in a result. *)
Theorem searchNearbyDrivers_no_duplicates env data w l w' :
  searchNearbyDrivers env data w = (Return l, w') → NoDup (driverIds l).
Proof.
  intros Hrun. apply searchNearbyDrivers_Return in Hrun as (_ & _ & -> & _).
  rewrite driverIds_entries. apply results_NoDup, search_NoDup.
Qed.

(** X3: A search changes neither the geo index nor the database, whatever its
    outcome, and sends at most the one GEOSEARCH. *)
Theorem searchNearbyDrivers_read_only env data w :
  let w' := (searchNearbyDrivers env data w).2 in
  redis_keys w' = redis_keys w ∧ driverProfile w' = driverProfile w ∧
  (trace w' = trace w ∨ trace w' = (trace w ++ [searchCall env data])%list).
Proof.
  unfold searchNearbyDrivers. case_bool_decide; simpl; [by auto|].
  unfold await, RedisService.geosearchLarge, await, geoSearchWith, resolve; simpl.
  destruct (redis_fault w); simpl; [by auto|].
  destruct (valid_position _ _); simpl; [|by auto].
  destruct (Qle_bool 0 _); simpl; [|by auto].
  rewrite count_option_good; simpl. by auto.
Qed.

(** X4: For a count that is not negative, a result holds exactly as many
    drivers as were asked for, or every candidate when there are fewer:
    ghosts fill the places that real drivers leave. *)
Theorem searchNearbyDrivers_length env data w l w' :
  searchNearbyDrivers env data w = (Return l, w') →
  0 ≤ NearbyQuery.count data →
  Z.of_nat (length l)
    = Z.min (NearbyQuery.count data) (Z.of_nat (length (candidates env data w))).
Proof.
  intros Hrun Hc. apply searchNearbyDrivers_Return in Hrun as (_ & _ & -> & _).
  rewrite length_fmap. by apply results_length.
Qed.

(** X5: A positive ceiling MAX_DRIVER_SEARCH_COUNT bounds the length of every
    result, whatever count is asked for. *)
Theorem searchNearbyDrivers_ceiling env data w l w' n :
  searchNearbyDrivers env data w = (Return l, w') →
  maxSearchCount env = Some n → 0 < n →
  Z.of_nat (length l) ≤ n.
Proof.
  intros Hrun Hmax Hn. apply searchNearbyDrivers_Return in Hrun as (_ & _ & -> & _).
  rewrite length_fmap.
  assert (Z.of_nat (length (candidates env data w)) ≤ n) as Hcand.
  { unfold candidates. rewrite Hmax. simpl.
    rewrite bool_decide_eq_true_2 by lia. simpl.
    replace (0 <? n) with true by (symmetry; apply Z.ltb_lt, Hn).
    apply search_length. lia. }
  set (all := candidates env data w) in *.
  assert (length (results (preferRealDrivers env) (NearbyQuery.count data) all)
            ≤ length all)%nat; [|lia].
  unfold results. destruct (preferRealDrivers env).
  - rewrite length_app.
    pose proof (length_filter_split (λ r, isGhost (member r)) all).
    pose proof (sublist_length _ _ (sublist_slice0
      (List.filter (λ r, negb (isGhost (member r))) all) (NearbyQuery.count data))).
    pose proof (sublist_length _ _ (sublist_slice0
      (List.filter (λ r, isGhost (member r)) all)
      (Js.max0 (NearbyQuery.count data - Z.of_nat (length (Js.slice0
         (List.filter (λ r, negb (isGhost (member r))) all) (NearbyQuery.count data))))))).
    lia.
  - apply sublist_length, sublist_slice0.
Qed.

(** X6: When real drivers are preferred, the result starts with the nearest
    real candidates, as many as the count allows, and everything after
    them is a ghost. *)
Theorem searchNearbyDrivers_real_first env data w l w' :
  searchNearbyDrivers env data w = (Return l, w') →
  Env.PREFER_REAL_DRIVERS env ≠ Some "false" →
  0 ≤ NearbyQuery.count data →
  ∃ ghosts,
    l = ((toEntry <$> take (Z.to_nat (NearbyQuery.count data)) (realCandidates env data w))
         ++ ghosts)%list ∧
    Forall ghostEntry ghosts.
Proof.
  intros Hrun Hpref Hc. apply searchNearbyDrivers_Return in Hrun as (_ & _ & -> & _).
  unfold preferRealDrivers. rewrite bool_decide_eq_false_2 by done. cbn [negb].
  unfold results. rewrite fmap_app. eexists. split.
  - f_equal. f_equal. unfold realCandidates, Js.slice0.
    destruct (NearbyQuery.count data <? 0) eqn:E; [apply Z.ltb_lt in E; lia|].
    set (reals := List.filter _ (candidates env data w)).
    destruct (Z.le_gt_cases (NearbyQuery.count data) (Z.of_nat (length reals))).
    + f_equal. lia.
    + rewrite !take_ge by lia. done.
  - rewrite (filter_ext_bool (λ r, isGhost (member r))
               (λ r, bool_decide (isGhost (member r) = true))).
    + apply (filter_entries isGhost true).
    + intros r. by destruct (isGhost (member r)).
Qed.

(** X7: When the count covers all candidates, the result is the candidates,
    at most reordered by the preference for real drivers. *)
Theorem searchNearbyDrivers_all env data w l w' :
  searchNearbyDrivers env data w = (Return l, w') →
  Z.of_nat (length (candidates env data w)) ≤ NearbyQuery.count data →
  l ≡ₚ toEntry <$> candidates env data w.
Proof.
  intros Hrun Hc. apply searchNearbyDrivers_Return in Hrun as (_ & _ & -> & _).
  apply fmap_Permutation. by apply results_all.
Qed.

Lemma results_complete env data w id p :
  uncapped env w →
  Z.of_nat (size (geoset "drivers" w)) ≤ NearbyQuery.count data →
  geoset "drivers" w !! id = Some p →
  (geodist (mk (NearbyQuery.longitude data) (NearbyQuery.latitude data)) p
     <= NearbyQuery.radiusKm data)%Q →
  id ∈ member <$> results (preferRealDrivers env) (NearbyQuery.count data)
                    (candidates env data w).
Proof.
  intros Hcap Hcount Hid Hdist.
  assert (Z.of_nat (length (candidates env data w)) ≤ NearbyQuery.count data) as Hlen.
  { rewrite candidates_uncapped by done. unfold withinRadius, search, limit.
    rewrite merge_sort_Permutation.
    pose proof (sublist_length _ _ (sublist_List_filter
      (in_radius (NearbyQuery.radiusKm data))
      (measured (mk (NearbyQuery.longitude data) (NearbyQuery.latitude data))
         (geoset "drivers" w)))) as Hle.
    unfold measured in Hle at 2. rewrite length_fmap, length_map_to_list in Hle. lia. }
  rewrite (results_all _ _ _ Hlen), candidates_uncapped by done.
  apply list_elem_of_fmap.
  exists (reply id (geodist (mk (NearbyQuery.longitude data) (NearbyQuery.latitude data)) p)).
  split; [done|]. apply elem_of_search_all. by exists p.
Qed.

(** X8: A driver stored within the radius is returned when the store serves
    the query and neither the ceiling nor the count is smaller than the
    index. *)
Theorem searchNearbyDrivers_complete env data w id p :
  Env.USE_H3 env ≠ Some "true" → served data w →
  uncapped env w →
  Z.of_nat (size (geoset "drivers" w)) ≤ NearbyQuery.count data →
  geoset "drivers" w !! id = Some p →
  (geodist (mk (NearbyQuery.longitude data) (NearbyQuery.latitude data)) p
     <= NearbyQuery.radiusKm data)%Q →
  ∃ l w', searchNearbyDrivers env data w = (Return l, w') ∧ id ∈ driverIds l.
Proof.
  intros Hflat Hserved Hcap Hcount Hid Hdist.
  eexists _, _. split; [by apply searchNearbyDrivers_flat|].
  rewrite driverIds_entries. by apply (results_complete env data w id p).
Qed.
End SearchService.

Lemma searchNearbyDrivers_sound_witness :
  ∃ p, RedisClient.geoset "drivers" Sample.far_real_near_ghost !! "real:1" = Some p ∧
       NearbyDriver.distance (north "real:1" 0.02)
         = @Geo.geodist Sample.meridian (Geo.mk 0 0) p ∧
       (NearbyDriver.distance (north "real:1" 0.02) <= 5)%Q.
Proof.
  refine (searchNearbyDrivers_sound (metric := Sample.meridian) Env.unset
            (NearbyQuery.mk 0 0 5 2) Sample.far_real_near_ghost
            [north "real:1" 0.02; north "ghost:1" 0.001] _ (north "real:1" 0.02) _ _).
  - vm_compute. reflexivity.
  - left.
Defined.

Lemma searchNearbyDrivers_no_duplicates_witness :
  NoDup (driverIds [north "real:1" 0.02; north "ghost:1" 0.001]).
Proof.
  refine (searchNearbyDrivers_no_duplicates (metric := Sample.meridian) Env.unset
            (NearbyQuery.mk 0 0 5 2) Sample.far_real_near_ghost _ _ _).
  vm_compute. reflexivity.
Defined.

Lemma searchNearbyDrivers_length_witness :
  Z.of_nat (length [north "real:1" 0.02])
  = Z.min 1 (Z.of_nat (length (candidates (metric := Sample.meridian) Env.unset
                                 (NearbyQuery.mk 0 0 5 1) Sample.far_real_near_ghost))).
Proof.
  refine (searchNearbyDrivers_length (metric := Sample.meridian) Env.unset
            (NearbyQuery.mk 0 0 5 1) Sample.far_real_near_ghost _ _ _ _).
  - vm_compute. reflexivity.
  - simpl. lia.
Defined.

Lemma searchNearbyDrivers_ceiling_witness :
  Z.of_nat (length [north "ghost:1" 0.001]) ≤ 1.
Proof.
  refine (searchNearbyDrivers_ceiling (metric := Sample.meridian)
            (Env.mk None (Some "1") None)
            (NearbyQuery.mk 0 0 5 2) Sample.far_real_near_ghost _ _ 1 _ _ _).
  - vm_compute. reflexivity.
  - reflexivity.
  - lia.
Defined.

Lemma searchNearbyDrivers_real_first_witness :
  ∃ ghosts,
    [north "real:1" 0.02; north "ghost:1" 0.001]
    = ((DriverService.toEntry
          <$> take (Z.to_nat 2)
                (realCandidates (metric := Sample.meridian) Env.unset
                   (NearbyQuery.mk 0 0 5 2) Sample.far_real_near_ghost))
       ++ ghosts)%list ∧
    Forall ghostEntry ghosts.
Proof.
  refine (searchNearbyDrivers_real_first (metric := Sample.meridian) Env.unset
            (NearbyQuery.mk 0 0 5 2) Sample.far_real_near_ghost _ _ _ _ _).
  - vm_compute. reflexivity.
  - discriminate.
  - simpl. lia.
Defined.

Lemma searchNearbyDrivers_all_witness :
  [north "real:1" 0.02; north "ghost:1" 0.001]
  ≡ₚ DriverService.toEntry
       <$> candidates (metric := Sample.meridian) Env.unset
             (NearbyQuery.mk 0 0 5 2) Sample.far_real_near_ghost.
Proof.
  refine (searchNearbyDrivers_all (metric := Sample.meridian) Env.unset
            (NearbyQuery.mk 0 0 5 2) Sample.far_real_near_ghost _ _ _ _).
  - vm_compute. reflexivity.
  - vm_compute. discriminate.
Defined.

Lemma searchNearbyDrivers_complete_witness :
  ∃ l w',
    DriverService.searchNearbyDrivers (metric := Sample.meridian) Env.unset
      (NearbyQuery.mk 0 0 5 2) Sample.far_real_near_ghost = (Return l, w') ∧
    "real:1" ∈ driverIds l.
Proof.
  refine (searchNearbyDrivers_complete (metric := Sample.meridian) Env.unset
            (NearbyQuery.mk 0 0 5 2) Sample.far_real_near_ghost "real:1"
            (Geo.mk 0 0.02) _ _ _ _ _ _).
  - discriminate.
  - repeat split.
  - vm_compute. discriminate.
  - vm_compute. discriminate.
  - reflexivity.
  - vm_compute. discriminate.
Defined.

(** ** Location reports and the geo index *)

Section LocationReports.
Import Geo RedisClient DriverService.

Lemma geoAdd_stored key lon lat m w :
  redis_fault w = None → valid_position lon lat = true →
  ∃ n, geoAdd key lon lat m w
       = (Return n,
          set_redis_keys (<[key := <[m := mk lon lat]> (geoset key w)]> (redis_keys w))
            (record (GEOADD key lon lat m) w)).
Proof.
  intros Hr Hv. unfold geoAdd; simpl. rewrite Hr, Hv. by eexists.
Qed.

Lemma transaction_update_redis id f w :
  redis_fault (Prisma.transaction (Prisma.update id f) w).2 = redis_fault w ∧
  redis_keys (Prisma.transaction (Prisma.update id f) w).2 = redis_keys w.
Proof.
  unfold Prisma.transaction, Prisma.update; simpl.
  destruct (db_fault w); simpl; [done|].
  destruct (driverProfile w !! id); simpl; done.
Qed.

Lemma transaction_update_row id f w row :
  db_fault w = None → driverProfile w !! id = Some row →
  Prisma.transaction (Prisma.update id f) w
  = (Return (f row),
     set_driverProfile (<[id := f row]> (driverProfile w)) (record (Update id) w)).
Proof.
  intros Hd Hrow. unfold Prisma.transaction, Prisma.update; simpl.
  by rewrite Hd, Hrow.
Qed.

Lemma transaction_update_missing id f w :
  db_fault w = None → driverProfile w !! id = None →
  Prisma.transaction (Prisma.update id f) w = (Throw Prisma.not_found, record (Update id) w).
Proof.
  intros Hd Hrow. unfold Prisma.transaction, Prisma.update; simpl.
  by rewrite Hd, Hrow.
Qed.

Lemma findOne_row id w row :
  isGhost id = false → db_fault w = None → driverProfile w !! id = Some row →
  findOne id w = (Return (mapToResponse row), record (FindUnique id) w).
Proof.
  intros Hg Hd Hrow. unfold findOne, await, Prisma.findUnique; rewrite Hg; simpl.
  by rewrite Hd, Hrow.
Qed.

Lemma updateLocation_geoset data w :
  let id := UpdateLocationRequest.driverId data in
  let lon := UpdateLocationRequest.longitude data in
  let lat := UpdateLocationRequest.latitude data in
  redis_fault w = None → valid_position lon lat = true →
  geoset "drivers" (updateLocation data w).2 = <[id := mk lon lat]> (geoset "drivers" w).
Proof.
  intros id lon lat Hr Hv.
  destruct (geoAdd_stored "drivers" lon lat id w Hr Hv) as [n Hadd].
  assert (redis_keys (updateLocation data w).2
          = <["drivers" := <[id := mk lon lat]> (geoset "drivers" w)]> (redis_keys w)) as Hkeys.
  { unfold updateLocation, await, RedisService.geoadd. fold id lon lat. rewrite Hadd.
    destruct (isGhost id); simpl; [done|].
    unfold await.
    pose proof (transaction_update_redis id (locationData lat lon)
      (set_redis_keys (<["drivers" := <[id := mk lon lat]> (geoset "drivers" w)]> (redis_keys w))
         (record (GEOADD "drivers" lon lat id) w))) as [_ Hk].
    destruct (Prisma.transaction _ _) as [[p|e] w2]; simpl in *; exact Hk. }
  unfold geoset at 1. by rewrite Hkeys, lookup_insert_eq.
Qed.

(** X11: A report with a position the store accepts puts the driver at that
    position in the 'drivers' index and moves no other driver, whether
    the database part of the report succeeds or not. *)
Theorem updateLocation_stores data w :
  let id := UpdateLocationRequest.driverId data in
  let lon := UpdateLocationRequest.longitude data in
  let lat := UpdateLocationRequest.latitude data in
  redis_fault w = None → valid_position lon lat = true →
  geoset "drivers" (updateLocation data w).2 !! id = Some (mk lon lat) ∧
  ∀ other, other ≠ id →
    geoset "drivers" (updateLocation data w).2 !! other = geoset "drivers" w !! other.
Proof.
  intros id lon lat Hr Hv.
  rewrite (updateLocation_geoset data w Hr Hv). fold id lon lat. split.
  - apply lookup_insert_eq.
  - intros other Hne. by rewrite lookup_insert_ne.
Qed.

(** X12: The report is not atomic: for an id that is no ghost and has no row
    in the database the call rejects with Prisma's not-found error, and
    the position it carried is in the geo index all the same. *)
Theorem updateLocation_unregistered data w :
  let id := UpdateLocationRequest.driverId data in
  let lon := UpdateLocationRequest.longitude data in
  let lat := UpdateLocationRequest.latitude data in
  redis_fault w = None → db_fault w = None → valid_position lon lat = true →
  isGhost id = false → driverProfile w !! id = None →
  ∃ w',
    updateLocation data w = (Throw Prisma.not_found, w') ∧
    geoset "drivers" w' !! id = Some (mk lon lat) ∧
    driverProfile w' = driverProfile w.
Proof.
  intros id lon lat Hr Hd Hv Hg Hrow.
  destruct (geoAdd_stored "drivers" lon lat id w Hr Hv) as [n Hadd].
  unfold updateLocation, await, RedisService.geoadd. fold id lon lat.
  rewrite Hadd, Hg. rewrite transaction_update_missing by done.
  eexists. split; [reflexivity|]. split; [|done].
  unfold geoset; simpl. rewrite lookup_insert_eq; simpl. apply lookup_insert_eq.
Qed.


(** X14: A report of a ghost sends the GEOADD and nothing else: no statement
    reaches the database and the table stays as it is. *)
Theorem updateLocation_ghost data w :
  let id := UpdateLocationRequest.driverId data in
  let lon := UpdateLocationRequest.longitude data in
  let lat := UpdateLocationRequest.latitude data in
  isGhost id = true →
  trace (updateLocation data w).2 = (trace w ++ [GEOADD "drivers" lon lat id])%list ∧
  driverProfile (updateLocation data w).2 = driverProfile w.
Proof.
  intros id lon lat Hg.
  unfold updateLocation, await, RedisService.geoadd, geoAdd. fold id lon lat.
  rewrite Hg; simpl.
  destruct (redis_fault w); simpl; [done|].
  destruct (valid_position lon lat); simpl; done.
Qed.
End LocationReports.

Section ReportThenSearch.
Import Geo RedisClient DriverService.
Context {metric : Metric}.

Lemma updateLocation_redis_fault data w :
  redis_fault (updateLocation data w).2 = redis_fault w.
Proof.
  unfold updateLocation, await, RedisService.geoadd, geoAdd; simpl.
  destruct (redis_fault w) eqn:Hr; simpl; [done|].
  destruct (valid_position _ _); simpl; [|done].
  destruct (isGhost _); simpl; [done|].
  unfold await.
  match goal with
  | |- context [Prisma.transaction (Prisma.update ?i ?f) ?w0] =>
      pose proof (transaction_update_redis i f w0) as [Hf _];
      destruct (Prisma.transaction (Prisma.update i f) w0) as [[p|e] w2]
  end; simpl in *; by rewrite Hf.
Qed.

(** What a search resolves or rejects with depends on the Redis side of
    the world only. *)
Lemma searchNearbyDrivers_redis env data w1 w2 :
  redis_fault w1 = redis_fault w2 → redis_keys w1 = redis_keys w2 →
  (searchNearbyDrivers env data w1).1 = (searchNearbyDrivers env data w2).1.
Proof.
  intros Hf Hk. unfold searchNearbyDrivers. case_bool_decide; [done|].
  unfold await, RedisService.geosearchLarge, await, geoSearchWith, resolve, geoset; simpl.
  rewrite Hf, Hk.
  destruct (redis_fault w2); simpl; [done|].
  destruct (valid_position _ _); simpl; [|done].
  destruct (Qle_bool 0 _); simpl; [|done].
  by rewrite count_option_good.
Qed.

(** X15: A driver who has just reported a position is found by a search whose
    radius covers that position, when neither the ceiling nor the count
    is smaller than the index. *)
Theorem updateLocation_then_search env loc data w :
  let id := UpdateLocationRequest.driverId loc in
  let here := mk (UpdateLocationRequest.longitude loc) (UpdateLocationRequest.latitude loc) in
  let centre := mk (NearbyQuery.longitude data) (NearbyQuery.latitude data) in
  let w1 := (updateLocation loc w).2 in
  redis_fault w = None →
  valid_position (longitude here) (latitude here) = true →
  Env.USE_H3 env ≠ Some "true" →
  valid_position (longitude centre) (latitude centre) = true →
  (0 <= NearbyQuery.radiusKm data)%Q →
  (geodist centre here <= NearbyQuery.radiusKm data)%Q →
  uncapped env w1 →
  Z.of_nat (size (geoset "drivers" w1)) ≤ NearbyQuery.count data →
  ∃ l w2, searchNearbyDrivers env data w1 = (Return l, w2) ∧ id ∈ driverIds l.
Proof.
  intros id here centre w1 Hr Hv Hflat Hc Hrad Hdist Hcap Hcount.
  assert (served data w1) as Hserved.
  { split; [|split].
    - unfold w1. by rewrite updateLocation_redis_fault.
    - exact Hc.
    - by apply Qle_bool_iff. }
  eexists _, _. split; [by apply searchNearbyDrivers_flat|].
  rewrite driverIds_entries. apply (results_complete env data w1 id here); try done.
  unfold w1. rewrite (updateLocation_geoset loc w Hr Hv). apply lookup_insert_eq.
Qed.
End ReportThenSearch.

(** ** Status changes, lookups and deletions *)

Section Profiles.
Import Geo RedisClient DriverService.

(** X17: A status change of a registered driver resolves to the profile with
    the new status, [findOne] returns that profile afterwards, and the
    last position is kept for ONLINE and cleared for BUSY and OFFLINE. *)
Theorem updateStatus_findOne data w row :
  let id := UpdateStatusRequest.driverId data in
  let st := UpdateStatusRequest.status data in
  isGhost id = false → db_fault w = None → driverProfile w !! id = Some row →
  ∃ r w1 w2,
    updateStatus data w = (Return r, w1) ∧
    findOne id w1 = (Return r, w2) ∧
    DriverProfileResponse.status r = st ∧
    DriverProfileResponse.lastLat r
      = match st with ONLINE => DriverProfile.lastLat row | BUSY | OFFLINE => None end ∧
    DriverProfileResponse.lastLng r
      = match st with ONLINE => DriverProfile.lastLng row | BUSY | OFFLINE => None end.
Proof.
  intros id st Hg Hd Hrow.
  unfold updateStatus, await. fold id st. rewrite Hg.
  rewrite (transaction_update_row _ _ _ row) by done.
  eexists _, _, _. split; [reflexivity|]. split.
  - apply findOne_row; [done|done|]. simpl. apply lookup_insert_eq.
  - simpl. by destruct st.
Qed.

Lemma updateStatus_redis data w :
  redis_fault (updateStatus data w).2 = redis_fault w ∧
  redis_keys (updateStatus data w).2 = redis_keys w.
Proof.
  unfold updateStatus, await. destruct (isGhost _); simpl; [done|].
  match goal with
  | |- context [Prisma.transaction (Prisma.update ?i ?f) ?w0] =>
      pose proof (transaction_update_redis i f w0) as Hrk;
      destruct (Prisma.transaction (Prisma.update i f) w0) as [[p|e] w2]
  end; simpl in *; exact Hrk.
Qed.

(** X18: A status change never reaches the geo index: after it, BUSY and
    OFFLINE included, every search returns what it returned before. *)
Theorem updateStatus_keeps_search {metric : Metric} data env query w :
  (searchNearbyDrivers env query (updateStatus data w).2).1
  = (searchNearbyDrivers env query w).1.
Proof.
  destruct (updateStatus_redis data w) as [Hf Hk].
  by apply searchNearbyDrivers_redis.
Qed.

(** X19: [findOne] of an id that is no ghost and has no row rejects with a
    TypeError, after the one lookup in the database. *)
Theorem findOne_unregistered id w :
  isGhost id = false → db_fault w = None → driverProfile w !! id = None →
  ∃ msg, findOne id w = (Throw (TypeError msg), record (FindUnique id) w).
Proof.
  intros Hg Hd Hrow. unfold findOne, await, Prisma.findUnique. rewrite Hg; simpl.
  rewrite Hd, Hrow. by eexists.
Qed.

(** X20: When the database statement of [deleteDriver] fails, as it does for
    every id without a row, the call is over with that statement: no
    command is sent to Redis and the world is otherwise unchanged. *)
Theorem deleteDriver_database_failure userId w e :
  (Prisma.delete userId w).1 = Throw e →
  (deleteDriver userId w).2 = record (Delete userId) w ∧
  (deleteDriver userId w).1
  = Return (DeleteResult.mk false (Js.or_string (Some (message e)) "Failed to delete driver")).
Proof.
  unfold deleteDriver, try_catch, await, Prisma.transaction, Prisma.delete, resolve; simpl.
  destruct (db_fault w) as [e'|]; simpl.
  - intros [= <-]. done.
  - destruct (driverProfile w !! userId); simpl; [done|].
    intros [= <-]. done.
Qed.

(** X21: Deleting a registered driver removes the row and no other row; a
    second deletion of the same id reports failure. *)
Theorem deleteDriver_removes_row userId w row :
  db_fault w = None → driverProfile w !! userId = Some row →
  ∃ w1,
    deleteDriver userId w
      = (Return (DeleteResult.mk true "Driver deleted successfully"), w1) ∧
    driverProfile w1 = delete userId (driverProfile w) ∧
    (deleteDriver userId w1).1
      = Return (DeleteResult.mk false (message Prisma.not_found)).
Proof.
  intros Hd Hrow.
  unfold deleteDriver, try_catch, await, Prisma.transaction, Prisma.delete,
    RedisService.geoadd, geoAdd, resolve; simpl.
  rewrite Hd, Hrow; simpl.
  destruct (redis_fault w); simpl; eexists; (split; [reflexivity|]); simpl;
    (split; [done|]); rewrite Hd, lookup_delete_eq; done.
Qed.
End Profiles.

(** ** Profile updates *)

Section ProfileUpdates.
Import DriverService DriverServiceProfile.

Lemma update_row id f w row :
  db_fault w = None → driverProfile w !! id = Some row →
  Prisma.update id f w
  = (Return (f row),
     set_driverProfile (<[id := f row]> (driverProfile w)) (record (Update id) w)).
Proof. intros Hd Hrow. unfold Prisma.update; simpl. by rewrite Hd, Hrow. Qed.

Lemma updateProfile_row request w row vt :
  db_fault w = None →
  driverProfile w !! UpdateProfileRequest.userId request = Some row →
  vt = (UpdateProfileRequest.vehicleType request ≫= vehicleTypeMap) →
  (∀ key, UpdateProfileRequest.vehicleType request = Some key → is_Some (vehicleTypeMap key)) →
  updateProfile request w
  = (Return (mapToResponse (updateData request vt row)),
     set_driverProfile
       (<[UpdateProfileRequest.userId request := updateData request vt row]> (driverProfile w))
       (record (Update (UpdateProfileRequest.userId request)) w)).
Proof.
  intros Hd Hrow -> Hkey. unfold updateProfile, await.
  destruct (UpdateProfileRequest.vehicleType request) as [key|]; simpl.
  - destruct (Hkey key eq_refl) as [v Hv]. rewrite Hv.
    by rewrite (update_row _ _ _ row).
  - by rewrite (update_row _ _ _ row).
Qed.

(** X22: A profile update of a registered driver changes the fields the
    request carries and no other: the status, the rating and the last
    position are never touched, and a field the request leaves undefined
    keeps its value.  [findOne] returns the updated profile afterwards. *)
Theorem updateProfile_keeps request w row :
  let id := UpdateProfileRequest.userId request in
  db_fault w = None → driverProfile w !! id = Some row →
  (∀ key, UpdateProfileRequest.vehicleType request = Some key → is_Some (vehicleTypeMap key)) →
  ∃ r w1,
    updateProfile request w = (Return r, w1) ∧
    (isGhost id = false → ∃ w2, findOne id w1 = (Return r, w2)) ∧
    DriverProfileResponse.status r = DriverProfile.status row ∧
    DriverProfileResponse.rating r = DriverProfile.rating row ∧
    DriverProfileResponse.lastLat r = DriverProfile.lastLat row ∧
    DriverProfileResponse.lastLng r = DriverProfile.lastLng row ∧
    DriverProfileResponse.name r
      = default (DriverProfile.name row) (UpdateProfileRequest.name request) ∧
    DriverProfileResponse.email r
      = default (DriverProfile.email row) (UpdateProfileRequest.email request) ∧
    DriverProfileResponse.phone r
      = default (DriverProfile.phone row) (UpdateProfileRequest.phone request) ∧
    DriverProfileResponse.licensePlate r
      = default (DriverProfile.licensePlate row) (UpdateProfileRequest.licensePlate request) ∧
    DriverProfileResponse.licenseNumber r
      = default (DriverProfile.licenseNumber row) (UpdateProfileRequest.licenseNumber request) ∧
    DriverProfileResponse.balance r
      = default (DriverProfile.balance row) (UpdateProfileRequest.balance request) ∧
    (UpdateProfileRequest.vehicleType request = None →
       DriverProfileResponse.vehicleType r = DriverProfile.vehicleType row).
Proof.
  intros id Hd Hrow Hkey.
  rewrite (updateProfile_row request w row _ Hd Hrow eq_refl Hkey).
  eexists _, _. split; [reflexivity|]. split.
  - intros Hg. eexists. apply findOne_row; [done|done|]. simpl. apply lookup_insert_eq.
  - simpl. repeat split. intros ->. done.
Qed.

(** X23: The vehicle type of a profile update is looked up by key in a map
    that holds "0" and "1" only: "1" gives BIKE, and every other key that
    names no inherited property, the enum's own names included, gives
    MOTOBIKE. *)
Theorem updateProfile_vehicleType request w row key :
  let id := UpdateProfileRequest.userId request in
  db_fault w = None → driverProfile w !! id = Some row →
  UpdateProfileRequest.vehicleType request = Some key →
  JsObject.inherited key = false →
  ∃ r w1,
    updateProfile request w = (Return r, w1) ∧
    DriverProfileResponse.vehicleType r = (if decide (key = "1") then BIKE else MOTOBIKE).
Proof.
  intros id Hd Hrow Hvt Hown.
  assert (vehicleTypeMap key = Some (if decide (key = "1") then BIKE else MOTOBIKE)) as Hmap.
  { unfold vehicleTypeMap. rewrite Hown.
    destruct (decide (key = "0")) as [->|]; [done|].
    by destruct (decide (key = "1")). }
  rewrite (updateProfile_row request w row
             (Some (if decide (key = "1") then BIKE else MOTOBIKE)) Hd Hrow).
  - eexists _, _. split; [reflexivity|]. done.
  - by rewrite Hvt; simpl.
  - intros key' Hkey'. rewrite Hvt in Hkey'. injection Hkey' as <-. by rewrite Hmap.
Qed.

(** X24: A profile update that carries no field leaves the table as it is and
    resolves to the profile as it was. *)
Theorem updateProfile_nothing id w row :
  db_fault w = None → driverProfile w !! id = Some row →
  ∃ w1,
    updateProfile (UpdateProfileRequest.mk id None None None None None None None) w
      = (Return (mapToResponse row), w1) ∧
    driverProfile w1 = driverProfile w.
Proof.
  intros Hd Hrow.
  rewrite (updateProfile_row (UpdateProfileRequest.mk id None None None None None None None)
             w row None Hd Hrow eq_refl); [|done].
  assert (updateData (UpdateProfileRequest.mk id None None None None None None None) None row
          = row) as -> by (by destruct row).
  eexists. split; [reflexivity|]. simpl. by apply insert_id.
Qed.

(** A profile update of an id without a row rejects with Prisma's
    not-found error and changes no row. *)
Theorem updateProfile_unregistered request w :
  let id := UpdateProfileRequest.userId request in
  db_fault w = None → driverProfile w !! id = None →
  (∀ key, UpdateProfileRequest.vehicleType request = Some key → is_Some (vehicleTypeMap key)) →
  updateProfile request w = (Throw Prisma.not_found, record (Update id) w).
Proof.
  intros id Hd Hrow Hkey. unfold updateProfile, await, Prisma.update. fold id.
  destruct (UpdateProfileRequest.vehicleType request) as [key|]; simpl.
  - destruct (Hkey key eq_refl) as [v ->]. simpl. by rewrite Hd, Hrow.
  - by rewrite Hd, Hrow.
Qed.
End ProfileUpdates.

(** ** The earlier revision of the search *)

Section Revision1.
Import Geo RedisClient DriverService.
Context {metric : Metric}.

Lemma count_option_positive n : 0 < n → RedisService.count_option (Some n) = Some n.
Proof.
  intros Hn. unfold RedisService.count_option.
  rewrite bool_decide_eq_true_2 by lia.
  by replace (0 <? n) with true by (symmetry; apply Z.ltb_lt, Hn).
Qed.

Lemma count_option_not_positive n : n ≤ 0 → RedisService.count_option (Some n) = None.
Proof.
  intros Hn. unfold RedisService.count_option.
  replace (0 <? n) with false by (symmetry; apply Z.ltb_ge, Hn).
  by rewrite andb_false_r.
Qed.

Lemma v1_flat data w :
  served data w →
  DriverServiceV1.searchNearbyDrivers data w
  = (Return (toEntry <$> search (mk (NearbyQuery.longitude data) (NearbyQuery.latitude data))
                           (NearbyQuery.radiusKm data)
                           (RedisService.count_option (Some (NearbyQuery.count data)))
                           (geoset "drivers" w)),
     record (GEOSEARCH "drivers" (NearbyQuery.longitude data) (NearbyQuery.latitude data)
               (NearbyQuery.radiusKm data)
               (RedisService.count_option (Some (NearbyQuery.count data)))) w).
Proof.
  intros (Hup & Hpos & Hrad).
  unfold DriverServiceV1.searchNearbyDrivers, await, RedisService.geosearch, await,
    geoSearchWith, resolve.
  cbn [redis_fault record]. rewrite Hup, Hpos, Hrad. cbn [negb].
  rewrite count_option_good. by rewrite rebuild_replies.
Qed.

Lemma v1_Return data w l w' :
  DriverServiceV1.searchNearbyDrivers data w = (Return l, w') →
  served data w ∧
  l = toEntry <$> search (mk (NearbyQuery.longitude data) (NearbyQuery.latitude data))
                    (NearbyQuery.radiusKm data)
                    (RedisService.count_option (Some (NearbyQuery.count data)))
                    (geoset "drivers" w).
Proof.
  unfold DriverServiceV1.searchNearbyDrivers, await, RedisService.geosearch, await,
    geoSearchWith, resolve, served.
  cbn [redis_fault record].
  destruct (redis_fault w) as [e|]; [done|].
  destruct (valid_position _ _); [|done].
  destruct (Qle_bool 0 _); [|done].
  cbn [negb]. rewrite count_option_good, rebuild_replies.
  intros [= <- <-]. done.
Qed.

(** X25: In the earlier revision every successful result is in non-decreasing
    order of distance. *)
Theorem v1_distance_order data w l w' :
  DriverServiceV1.searchNearbyDrivers data w = (Return l, w') → nonDecreasing l.
Proof.
  intros Hrun. apply v1_Return in Hrun as [_ ->].
  apply sorted_entries, search_sorted.
Qed.

(** X26: In the earlier revision a count of zero or less lifts the limit: the
    result is every driver within the radius. *)
Theorem v1_count_not_positive data w :
  served data w → NearbyQuery.count data ≤ 0 →
  (DriverServiceV1.searchNearbyDrivers data w).1
  = Return (toEntry <$> withinRadius data w).
Proof.
  intros Hserved Hc.
  rewrite (v1_flat data w Hserved), count_option_not_positive by done.
  reflexivity.
Qed.

Lemma slice0_take {A} (l : list A) (count n : Z) :
  0 ≤ count ≤ n → Js.slice0 (take (Z.to_nat n) l) count = take (Z.to_nat count) l.
Proof.
  intros Hc. unfold Js.slice0.
  destruct (count <? 0) eqn:E; [apply Z.ltb_lt in E; lia|].
  rewrite take_take, length_take.
  destruct (Z.le_gt_cases count (Z.of_nat (length l))).
  - f_equal. lia.
  - rewrite !take_ge by lia. done.
Qed.

(** X27: The two revisions agree on every query with a positive count up to
    the ceiling, when the later one is told not to prefer real drivers. *)
Theorem revisions_agree env data w n :
  Env.USE_H3 env ≠ Some "true" →
  Env.PREFER_REAL_DRIVERS env = Some "false" →
  maxSearchCount env = Some n →
  0 < NearbyQuery.count data ≤ n →
  (searchNearbyDrivers env data w).1 = (DriverServiceV1.searchNearbyDrivers data w).1.
Proof.
  intros Hflat Hpref Hmax Hc.
  unfold searchNearbyDrivers, DriverServiceV1.searchNearbyDrivers.
  rewrite bool_decide_eq_false_2 by done.
  unfold await, RedisService.geosearchLarge, RedisService.geosearch, await,
    geoSearchWith, resolve.
  cbn [redis_fault record].
  destruct (redis_fault w) as [e|]; [done|].
  destruct (valid_position _ _); [|done].
  destruct (Qle_bool 0 _); [|done].
  cbn [negb]. rewrite !count_option_good, !rebuild_replies.
  cbn [fst]. f_equal. f_equal.
  unfold preferRealDrivers. rewrite bool_decide_eq_true_2 by done. cbn [negb].
  unfold results. rewrite Hmax.
  rewrite !count_option_positive by lia.
  unfold search, limit. apply slice0_take. lia.
Qed.
End Revision1.

(** ** Identifiers of the load tests *)

Section TestIdentifiers.
Import TestData.

Lemma substring_all (s : string) : String.substring 0 (String.length s) s = s.
Proof. induction s as [|c s IH]; simpl; [done|]. by rewrite IH. Qed.

Lemma zeros_fill (k : nat) :
  String.substring 0 k (repeat_string k "0")
  = NilEmpty.string_of_uint (Nat.iter k Decimal.D0 Decimal.Nil).
Proof. induction k as [|k IH]; simpl; [done|]. rewrite <- IH. reflexivity. Qed.

Lemma zeros_append (k : nat) (d : Decimal.uint) :
  NilEmpty.string_of_uint (Nat.iter k Decimal.D0 Decimal.Nil) +:+ NilEmpty.string_of_uint d
  = NilEmpty.string_of_uint (Nat.iter k Decimal.D0 d).
Proof. induction k as [|k IH]; [done|]. simpl. rewrite <- IH. reflexivity. Qed.

Lemma of_uint_zeros (k : nat) (d : Decimal.uint) :
  N.of_uint (Nat.iter k Decimal.D0 d) = N.of_uint d.
Proof. induction k as [|k IH]; simpl; [done|]. exact IH. Qed.

Lemma padStart_index (n : N) :
  N.of_uint <$> NilEmpty.uint_of_string (padStart (String_ n) 4 "0") = Some n.
Proof.
  unfold padStart, String_.
  destruct (4 <=? _)%nat.
  - rewrite NilEmpty.usu. simpl. f_equal. apply DecimalN.Unsigned.of_to.
  - destruct (decide ("0" = "")) as [Heq|_]; [discriminate|].
    rewrite zeros_fill, zeros_append, NilEmpty.usu. simpl.
    rewrite of_uint_zeros. f_equal. apply DecimalN.Unsigned.of_to.
Qed.

Lemma indexOf_prefix (prefix s : string) :
  indexOf prefix (prefix +:+ s) = N.of_uint <$> NilEmpty.uint_of_string s.
Proof.
  unfold indexOf. induction prefix as [|c prefix IH].
  - change ("" +:+ s) with s. simpl.
    replace (String.prefix "" s) with true by (by destruct s).
    by rewrite Nat.sub_0_r, substring_all.
  - change (String c prefix +:+ s) with (String c (prefix +:+ s)). simpl.
    destruct (Ascii.ascii_dec c c) as [_|Hne]; [|done]. exact IH.
Qed.

(** X28: The index, a safe integer, can be read back from a generated
    identifier, for drivers and for users: different indexes give
    different identifiers. *)
Theorem generated_index (n : N) :
  (n ≤ 9007199254740991)%N →
  indexOf "k6_test_driver_" (generateDriverId n) = Some n ∧
  indexOf "k6_test_user_" (generateUserId n) = Some n.
Proof.
  intros _. unfold generateDriverId, generateUserId.
  rewrite !indexOf_prefix. split; apply padStart_index.
Qed.

(** No generated identifier is taken for a ghost by the driver service,
    and no driver identifier is a user identifier. *)
Theorem generated_ids_real (i j : N) :
  DriverService.isGhost (generateDriverId i) = false ∧
  DriverService.isGhost (generateUserId i) = false ∧
  generateDriverId i ≠ generateUserId j.
Proof. repeat split. discriminate. Qed.
End TestIdentifiers.

(** ** The further properties on sample worlds *)

Example generateDriverId_7 : TestData.generateDriverId 7 = "k6_test_driver_0007".
Proof. reflexivity. Qed.

Example generateUserId_12345 : TestData.generateUserId 12345 = "k6_test_user_12345".
Proof. reflexivity. Qed.

Example vehicleTypeMap_BIKE : DriverServiceProfile.vehicleTypeMap "BIKE" = Some MOTOBIKE.
Proof. reflexivity. Qed.

Lemma generated_index_witness :
  indexOf "k6_test_driver_" (TestData.generateDriverId 42) = Some 42%N ∧
  indexOf "k6_test_user_" (TestData.generateUserId 42) = Some 42%N.
Proof. apply (generated_index 42). vm_compute. discriminate. Defined.

Lemma updateLocation_stores_witness :
  RedisClient.geoset "drivers"
    (DriverService.updateLocation (UpdateLocationRequest.mk "d1" 10.78 106.71)
       Sample.one_driver).2 !! "d1" = Some (Geo.mk 106.71 10.78) ∧
  ∀ other, other ≠ "d1" →
    RedisClient.geoset "drivers"
      (DriverService.updateLocation (UpdateLocationRequest.mk "d1" 10.78 106.71)
         Sample.one_driver).2 !! other
    = RedisClient.geoset "drivers" Sample.one_driver !! other.
Proof.
  apply (updateLocation_stores (UpdateLocationRequest.mk "d1" 10.78 106.71) Sample.one_driver);
    reflexivity.
Defined.

Lemma updateLocation_unregistered_witness :
  ∃ w',
    DriverService.updateLocation (UpdateLocationRequest.mk "real:9" 0.01 0)
      Sample.far_real_near_ghost = (Throw Prisma.not_found, w') ∧
    RedisClient.geoset "drivers" w' !! "real:9" = Some (Geo.mk 0 0.01) ∧
    driverProfile w' = driverProfile Sample.far_real_near_ghost.
Proof.
  apply (updateLocation_unregistered (UpdateLocationRequest.mk "real:9" 0.01 0)
           Sample.far_real_near_ghost); reflexivity.
Defined.


Lemma updateLocation_ghost_witness :
  trace (DriverService.updateLocation (UpdateLocationRequest.mk "ghost:7" 10.78 106.71)
           Sample.one_driver).2
  = [GEOADD "drivers" 106.71 10.78 "ghost:7"] ∧
  driverProfile (DriverService.updateLocation (UpdateLocationRequest.mk "ghost:7" 10.78 106.71)
                   Sample.one_driver).2
  = driverProfile Sample.one_driver.
Proof.
  apply (updateLocation_ghost (UpdateLocationRequest.mk "ghost:7" 10.78 106.71)
           Sample.one_driver).
  reflexivity.
Defined.

Lemma updateLocation_then_search_witness :
  ∃ l w2,
    DriverService.searchNearbyDrivers (metric := Sample.meridian) Env.unset
      (NearbyQuery.mk 0 0 5 10)
      (DriverService.updateLocation (UpdateLocationRequest.mk "real:9" 0.01 0)
         Sample.far_real_near_ghost).2 = (Return l, w2) ∧
    "real:9" ∈ driverIds l.
Proof.
  apply (updateLocation_then_search (metric := Sample.meridian) Env.unset
           (UpdateLocationRequest.mk "real:9" 0.01 0) (NearbyQuery.mk 0 0 5 10)
           Sample.far_real_near_ghost).
  - reflexivity.
  - reflexivity.
  - discriminate.
  - reflexivity.
  - vm_compute. discriminate.
  - vm_compute. discriminate.
  - vm_compute. discriminate.
  - vm_compute. discriminate.
Defined.

Lemma updateStatus_findOne_witness :
  ∃ r w1 w2,
    DriverService.updateStatus (UpdateStatusRequest.mk "d1" OFFLINE) Sample.one_driver
      = (Return r, w1) ∧
    DriverService.findOne "d1" w1 = (Return r, w2) ∧
    DriverProfileResponse.status r = OFFLINE ∧
    DriverProfileResponse.lastLat r = None ∧
    DriverProfileResponse.lastLng r = None.
Proof.
  apply (updateStatus_findOne (UpdateStatusRequest.mk "d1" OFFLINE) Sample.one_driver
           (Sample.row "d1")); reflexivity.
Defined.

Lemma findOne_unregistered_witness :
  ∃ msg,
    DriverService.findOne "real:1" Sample.far_real_near_ghost
    = (Throw (TypeError msg), record (FindUnique "real:1") Sample.far_real_near_ghost).
Proof.
  apply (findOne_unregistered "real:1" Sample.far_real_near_ghost); reflexivity.
Defined.

Lemma deleteDriver_database_failure_witness :
  (DriverService.deleteDriver "ghost:1" Sample.far_real_near_ghost).2
  = record (Delete "ghost:1") Sample.far_real_near_ghost ∧
  (DriverService.deleteDriver "ghost:1" Sample.far_real_near_ghost).1
  = Return (DeleteResult.mk false
              (Js.or_string (Some (message Prisma.not_found)) "Failed to delete driver")).
Proof.
  apply (deleteDriver_database_failure "ghost:1" Sample.far_real_near_ghost Prisma.not_found).
  reflexivity.
Defined.

Lemma deleteDriver_removes_row_witness :
  ∃ w1,
    DriverService.deleteDriver "d1" Sample.one_driver
      = (Return (DeleteResult.mk true "Driver deleted successfully"), w1) ∧
    driverProfile w1 = delete "d1" (driverProfile Sample.one_driver) ∧
    (DriverService.deleteDriver "d1" w1).1
      = Return (DeleteResult.mk false (message Prisma.not_found)).
Proof.
  apply (deleteDriver_removes_row "d1" Sample.one_driver (Sample.row "d1")); reflexivity.
Defined.

Lemma updateProfile_keeps_witness :
  ∃ r w1,
    DriverServiceProfile.updateProfile
      (UpdateProfileRequest.mk "d1" (Some "Binh") None None None None None (Some 25%Q))
      Sample.one_driver = (Return r, w1) ∧
    DriverProfileResponse.name r = "Binh" ∧
    DriverProfileResponse.balance r = 25%Q ∧
    DriverProfileResponse.email r = "an@uit.go" ∧
    DriverProfileResponse.status r = ONLINE.
Proof.
  destruct (updateProfile_keeps
              (UpdateProfileRequest.mk "d1" (Some "Binh") None None None None None (Some 25%Q))
              Sample.one_driver (Sample.row "d1") eq_refl eq_refl)
    as (r & w1 & Hrun & _ & Hst & _ & _ & _ & Hname & Hemail & _ & _ & _ & Hbal & _).
  - intros key Hkey. discriminate Hkey.
  - exists r, w1. repeat split; assumption.
Defined.

Lemma updateProfile_vehicleType_witness :
  ∃ r w1,
    DriverServiceProfile.updateProfile
      (UpdateProfileRequest.mk "d1" None None None (Some "BIKE") None None None)
      Sample.one_driver = (Return r, w1) ∧
    DriverProfileResponse.vehicleType r = MOTOBIKE.
Proof.
  apply (updateProfile_vehicleType
           (UpdateProfileRequest.mk "d1" None None None (Some "BIKE") None None None)
           Sample.one_driver (Sample.row "d1") "BIKE"); reflexivity.
Defined.

Lemma updateProfile_nothing_witness :
  ∃ w1,
    DriverServiceProfile.updateProfile
      (UpdateProfileRequest.mk "d1" None None None None None None None) Sample.one_driver
      = (Return (DriverService.mapToResponse (Sample.row "d1")), w1) ∧
    driverProfile w1 = driverProfile Sample.one_driver.
Proof.
  apply (updateProfile_nothing "d1" Sample.one_driver (Sample.row "d1")); reflexivity.
Defined.

Lemma updateProfile_unregistered_witness :
  DriverServiceProfile.updateProfile
    (UpdateProfileRequest.mk "d2" (Some "Binh") None None None None None None)
    Sample.one_driver
  = (Throw Prisma.not_found, record (Update "d2") Sample.one_driver).
Proof.
  apply (updateProfile_unregistered
           (UpdateProfileRequest.mk "d2" (Some "Binh") None None None None None None)
           Sample.one_driver); [reflexivity|reflexivity|].
  intros key Hkey. discriminate Hkey.
Defined.

Lemma v1_distance_order_witness :
  nonDecreasing [north "ghost:1" 0.001; north "real:1" 0.02].
Proof.
  refine (v1_distance_order (metric := Sample.meridian) (NearbyQuery.mk 0 0 5 2)
            Sample.far_real_near_ghost _ _ _).
  vm_compute. reflexivity.
Defined.

Lemma v1_count_not_positive_witness :
  (DriverServiceV1.searchNearbyDrivers (metric := Sample.meridian)
     (NearbyQuery.mk 0 0 5 (-1)) Sample.two_reals).1
  = Return (DriverService.toEntry
              <$> withinRadius (metric := Sample.meridian)
                    (NearbyQuery.mk 0 0 5 (-1)) Sample.two_reals).
Proof.
  apply (v1_count_not_positive (metric := Sample.meridian)).
  - repeat split.
  - simpl. lia.
Defined.

Lemma revisions_agree_witness :
  (DriverService.searchNearbyDrivers (metric := Sample.meridian)
     (Env.mk None None (Some "false")) (NearbyQuery.mk 0 0 5 1) Sample.far_real_near_ghost).1
  = (DriverServiceV1.searchNearbyDrivers (metric := Sample.meridian)
       (NearbyQuery.mk 0 0 5 1) Sample.far_real_near_ghost).1.
Proof.
  apply (revisions_agree (metric := Sample.meridian) (Env.mk None None (Some "false"))
           (NearbyQuery.mk 0 0 5 1) Sample.far_real_near_ghost 1000).
  - discriminate.
  - reflexivity.
  - reflexivity.
  - simpl. lia.
Defined.

(** ** Failures of the store *)

Section StoreFailures.
Import Geo RedisClient DriverService.
Context {metric : Metric}.



(** X16: When the Redis client fails, a location report rejects with the
    client's error after the GEOADD, and the database is not asked to
    store the position, for a registered driver either. *)
Theorem updateLocation_redis_down data w e :
  redis_fault w = Some e →
  updateLocation data w
  = (Throw e,
     record (GEOADD "drivers" (UpdateLocationRequest.longitude data)
               (UpdateLocationRequest.latitude data)
               (UpdateLocationRequest.driverId data)) w).
Proof.
  intros Hr. unfold updateLocation, await, RedisService.geoadd, geoAdd; simpl.
  by rewrite Hr.
Qed.
End StoreFailures.


Lemma updateLocation_redis_down_witness :
  DriverService.updateLocation (UpdateLocationRequest.mk "d1" 10.78 106.71)
    (mkWorld (Some (ClientError "The client is closed")) ∅ None
       {[ "d1" := Sample.row "d1" ]} [])
  = (Throw (ClientError "The client is closed"),
     record (GEOADD "drivers" 106.71 10.78 "d1")
       (mkWorld (Some (ClientError "The client is closed")) ∅ None
          {[ "d1" := Sample.row "d1" ]} [])).
Proof.
  apply (updateLocation_redis_down (UpdateLocationRequest.mk "d1" 10.78 106.71)).
  reflexivity.
Defined.

